(** * Lettr n8n node: the request, pagination and item-loop logic of
      [Lettr.execute], embedded in Rocq.

    Source: the node file (1069 lines) declaring [splitRecipientList],
    [parseOptionalJson], [getResponseData], [getResponseList],
    [getPagination], [lettrApiRequest] and the class [Lettr] with its
    [execute] method.

    Conventions of the embedding.
    - A JavaScript value that came out of JSON is a [Json]; objects are
      finite maps from property names to values.  [JNull] is [null]; an
      absent property or an [undefined] variable is [None] of an
      [option Json].
    - Numbers are the integers [Z]: page numbers, limits and identifiers.
      [NaN] is [None] of an [option Z].  Fractions and magnitudes beyond
      2^53 are outside the model.
    - A [string] is a sequence of code units, each below 256.
    - [execute] mutates [returnData] and talks to the host's HTTP helper;
      both live in an explicit [State], threaded by the monad [M].  A thrown
      exception is the outcome [Throw]; the two unbounded loops take fuel and
      [None] means that the fuel ran out. *)

From Stdlib Require Import ZArith Ascii String List Lia.
From stdpp Require Import base option list gmap strings fin_maps pretty sorting.

#[local] Set Warnings "-register-all".
#[local] Open Scope Z_scope.
#[local] Open Scope string_scope.

(** ** JSON values *)

Inductive Json : Type :=
  | JNull
  | JBool (b : bool)
  | JNum (n : Z)
  | JStr (s : string)
  | JArr (l : list Json)
  | JObj (m : gmap string Json).

(** [IDataObject] of n8n-workflow: an object with string keys. *)
Abbreviation IDataObject := (gmap string Json).

(** JavaScript truthiness ([if (v)], [while (v)], [!v]). *)
Definition truthyStr (s : string) : bool :=
  match s with EmptyString => false | String _ _ => true end.

Definition truthy (v : Json) : bool :=
  match v with
  | JNull => false
  | JBool b => b
  | JNum n => negb (n =? 0)%Z
  | JStr s => truthyStr s
  | JArr _ => true
  | JObj _ => true
  end.

Definition truthyOpt (v : option Json) : bool :=
  match v with Some x => truthy x | None => false end.

(** [v ?? d]: [d] when [v] is [undefined] or [null]. *)
Definition nullish (v : option Json) : option Json :=
  match v with Some JNull => None | _ => v end.

Definition coalesce (v : option Json) (d : Json) : Json :=
  match nullish v with Some x => x | None => d end.

(** [v[key]] for the property names this file reads ("data", the list
    fields, "pagination", "next_cursor", "current_page", "last_page"):
    only an object can own them; on a string, an array, a number or a
    boolean the read gives [undefined]. *)
Definition getProp (v : Json) (key : string) : option Json :=
  match v with JObj m => m !! key | _ => None end.

(** [{...v}]: the own enumerable properties of [v].  An array and a string
    spread to their indices, every other primitive to nothing. *)
Definition indexed {A} (f : A -> Json) (l : list A) : IDataObject :=
  list_to_map (imap (fun i x => (pretty i, f x)) l).

Definition spread (v : Json) : IDataObject :=
  match v with
  | JObj m => m
  | JArr l => indexed (fun x => x) l
  | JStr s => indexed (fun c => JStr (String c EmptyString)) (list_ascii_of_string s)
  | _ => ∅
  end.

(** The parts of the JavaScript runtime that the node calls and that are
    not modelled further: [JSON.parse] ([None] when it throws a
    [SyntaxError]) and the numeric value of a string or of an object
    ([Number("3")], [Number([])]; [None] is [NaN]). *)
Class JsRuntime := {
  JSON_parse : string -> option Json;
  ToNumberOther : Json -> option Z
}.

(** [Number(v)]. *)
Definition Number `{JsRuntime} (v : Json) : option Z :=
  match v with
  | JNum n => Some n
  | JBool true => Some 1
  | JBool false => Some 0
  | JNull => Some 0
  | _ => ToNumberOther v
  end.

(** [a < b] on numbers: false as soon as one side is [NaN]. *)
Definition jsLt (a b : option Z) : bool :=
  match a, b with
  | Some x, Some y => (x <? y)%Z
  | _, _ => false
  end.

(** [list.slice(0, end)]: a negative [end] counts from the end of the
    array. *)
Definition slice0 {A} (l : list A) (e : Z) : list A :=
  let len := Z.of_nat (length l) in
  let k := if (e <? 0)%Z then Z.max (len + e) 0 else Z.min e len in
  take (Z.to_nat k) l.

(** ** Strings: [split], [trim] *)

(** The character class of the regular expression [/[,\n;]/g]. *)
Definition isSeparator (c : ascii) : bool :=
  match c with
  | ","%char | ";"%char | "010"%char => true
  | _ => false
  end.

(** [WhiteSpace] and [LineTerminator] code units below 256, the ones
    [String.prototype.trim] strips: TAB, LF, VT, FF, CR, SP, NBSP. *)
Definition isWhiteSpace (c : ascii) : bool :=
  match c with
  | "009"%char | "010"%char | "011"%char | "012"%char | "013"%char
  | " "%char | "160"%char => true
  | _ => false
  end.

(** [value.split(/[,\n;]/g)]: a piece ends at every separator; the empty
    string splits into one empty piece. *)
Fixpoint split (s : string) : list string :=
  match s with
  | EmptyString => [EmptyString]
  | String c rest =>
      if isSeparator c then EmptyString :: split rest
      else match split rest with
           | piece :: pieces => String c piece :: pieces
           | [] => [String c EmptyString]
           end
  end.

Fixpoint trimStart (s : string) : string :=
  match s with
  | String c rest => if isWhiteSpace c then trimStart rest else s
  | EmptyString => EmptyString
  end.

Fixpoint trimEnd (s : string) : string :=
  match s with
  | String c rest =>
      match trimEnd rest with
      | EmptyString => if isWhiteSpace c then EmptyString else String c EmptyString
      | kept => String c kept
      end
  | EmptyString => EmptyString
  end.

Definition trim (s : string) : string := trimEnd (trimStart s).

(** Source lines 16-21. *)
Definition splitRecipientList (value : string) : list string :=
  filter (fun entry => (0 < String.length entry)%nat) (trim <$> split value).


(** ** The host: requests, errors, parameters, output records *)

Inductive IHttpRequestMethods := GET | POST.

(** [IHttpRequestOptions] as [lettrApiRequest] fills it; a deleted [body]
    or [qs] is [None]. *)
Record IHttpRequestOptions := {
  method : IHttpRequestMethods;
  baseURL : string;
  url : string;
  json : bool;
  body : option IDataObject;
  qs : option IDataObject
}.

(** What the host's HTTP helper does with a request: it resolves with the
    parsed response object or rejects; [message] is the message that the
    [NodeApiError] built from the rejection carries. *)
Inductive HttpResult :=
  | HttpOk (response : IDataObject)
  | HttpFail (message : string).

(** [IExecuteFunctions], as far as [execute] uses it.  The helper is a
    function of the requests already issued during this execution (oldest
    first), of the credential name and of the request. *)
Class IExecuteFunctions := {
  httpRequestWithAuthentication :
    list IHttpRequestOptions -> string -> IHttpRequestOptions -> HttpResult;
  continueOnFail : bool
}.

Inductive NodeError :=
  | NodeOperationError (message : string) (itemIndex : nat)
  | NodeApiError (message : string) (itemIndex : nat).

Definition errorMessage (e : NodeError) : string :=
  match e with
  | NodeOperationError m _ => m
  | NodeApiError m _ => m
  end.

Record INodeExecutionData := {
  ned_json : Json;
  pairedItem : nat
}.

(** The "Additional Fields" collection of the send operation (source lines
    243-357): a field that the caller did not add is [None]; the types are
    the declared ones. *)
Record AdditionalFields := {
  ampHtml : option string;
  bcc : option string;
  campaignId : option Z;
  cc : option string;
  fromName : option string;
  metadataJson : option string;
  optionsJson : option string;
  projectId : option Z;
  replyTo : option string;
  replyToName : option string;
  substitutionDataJson : option string;
  templateVersion : option Z;
  attachmentsJson : option string
}.

(** The node parameters of one input item, as [getNodeParameter] resolves
    them (defaults applied). *)
Record NodeParameters := {
  p_resource : string;
  p_operation : string;
  p_from : string;
  p_to : string;
  p_subject : string;
  p_html : string;
  p_text : string;
  p_templateSlug : string;
  p_additionalFields : AdditionalFields;
  p_requestId : string;
  p_returnAll : bool;
  p_limit : Z;
  p_simplify : bool;
  p_recipients : string;
  p_fromDate : string;
  p_toDate : string;
  p_cursor : string;
  p_templateProjectId : Z;
  p_templatePage : Z
}.

(** ** State and control flow *)

Record State := {
  requests : list IHttpRequestOptions;
  returnData : list INodeExecutionData
}.

Inductive Outcome (A : Type) :=
  | Done (a : A)
  | Throw (e : NodeError).
Arguments Done {A} a.
Arguments Throw {A} e.

Definition M (A : Type) : Type := State -> option (Outcome A * State).

Definition ret {A} (a : A) : M A := fun st => Some (Done a, st).

Definition bind {A B} (m : M A) (k : A -> M B) : M B :=
  fun st =>
    match m st with
    | Some (Done a, st') => k a st'
    | Some (Throw e, st') => Some (Throw e, st')
    | None => None
    end.

Definition throw {A} (e : NodeError) : M A := fun st => Some (Throw e, st).

Definition outOfFuel {A} : M A := fun _ => None.

Notation "x <- m ;; k" := (bind m (fun x => k))
  (at level 100, m at next level, right associativity).
Notation "m ;; k" := (bind m (fun _ => k))
  (at level 100, right associativity).

(** [if (c) { m }] *)
Definition when (c : bool) (m : M unit) : M unit := if c then m else ret tt.

(** [returnData.push(record)] *)
Definition push (record : INodeExecutionData) : M unit :=
  fun st => Some (Done tt, {| requests := requests st;
                              returnData := (returnData st ++ [record])%list |}).

(** [for (const entry of list) returnData.push({ json: entry, pairedItem })] *)
Fixpoint pushEntries (list : list Json) (itemIndex : nat) : M unit :=
  match list with
  | [] => ret tt
  | entry :: rest =>
      push {| ned_json := entry; pairedItem := itemIndex |} ;;
      pushEntries rest itemIndex
  end.

(** ** Helpers of the node (source lines 14-89) *)

Definition LETTR_BASE_URL : string := "https://app.lettr.com/api".

(** [s] between double quotes, as the error messages show a field name. *)
Definition quoted (s : string) : string :=
  String "034"%char (s +:+ String "034"%char EmptyString).

Definition parseOptionalJson `{JsRuntime}
    (value fieldName : string) (itemIndex : nat) : M Json :=
  match JSON_parse value with
  | Some v => ret v
  | None =>
      throw (NodeOperationError
               (quoted fieldName +:+ " must be valid JSON when provided.")
               itemIndex)
  end.

Definition getResponseData (response : IDataObject) : Json :=
  coalesce (response !! "data") (JObj ∅).

Definition getResponseList (response : IDataObject) (key : string) : list Json :=
  let data := getResponseData response in
  match getProp data key with
  | Some (JArr values) => values
  | _ => []
  end.

Definition getPagination (response : IDataObject) : Json :=
  let data := getResponseData response in
  coalesce (getProp data "pagination") (JObj ∅).

Definition nonEmpty (o : IDataObject) : option IDataObject :=
  if Nat.eqb (size o) 0 then None else Some o.

Definition lettrApiRequest `{IExecuteFunctions}
    (method : IHttpRequestMethods) (endpoint : string) (itemIndex : nat)
    (body qs : IDataObject) : M IDataObject :=
  fun st =>
    let options := {| method := method; baseURL := LETTR_BASE_URL;
                      url := endpoint; json := true;
                      body := nonEmpty body; qs := nonEmpty qs |} in
    let st' := {| requests := (requests st ++ [options])%list;
                  returnData := returnData st |} in
    match httpRequestWithAuthentication (requests st) "lettrApi" options with
    | HttpOk response => Some (Done response, st')
    | HttpFail message => Some (Throw (NodeApiError message itemIndex), st')
    end.

(** ** [execute]: the operations (source lines 689-1051) *)

(** Truthiness and value of a field of the "Additional Fields" collection. *)
Definition givenStr (o : option string) : bool :=
  match o with Some s => truthyStr s | None => false end.

Definition givenNum (o : option Z) : bool :=
  match o with Some n => negb (n =? 0)%Z | None => false end.

Definition strOf (o : option string) : string := default EmptyString o.
Definition numOf (o : option Z) : Z := default 0%Z o.

(** [if (c) body[key] = v] *)
Definition assignIf (c : bool) (key : string) (v : Json)
    (o : IDataObject) : IDataObject :=
  if c then <[key := v]> o else o.

(** [if (field) body[key] = parseOptionalJson(field, fieldName, ...)] *)
Definition assignJsonIf `{JsRuntime} (field : option string)
    (key fieldName : string) (itemIndex : nat) (o : IDataObject) : M IDataObject :=
  if givenStr field
  then v <- parseOptionalJson (strOf field) fieldName itemIndex ;;
       ret (<[key := v]> o)
  else ret o.

Definition recipientArray (value : string) : Json :=
  JArr (JStr <$> splitRecipientList value).

(** Source lines 720-781: the JSON body of POST /emails. *)
Definition sendBody `{JsRuntime} (p : NodeParameters) (to : list string)
    (itemIndex : nat) : M IDataObject :=
  let additionalFields := p_additionalFields p in
  let body : IDataObject :=
    <["subject" := JStr (p_subject p)]>
      (<["to" := JArr (JStr <$> to)]> (<["from" := JStr (p_from p)]> ∅)) in
  let body := assignIf (truthyStr (p_html p)) "html" (JStr (p_html p)) body in
  let body := assignIf (truthyStr (p_text p)) "text" (JStr (p_text p)) body in
  let body := assignIf (truthyStr (p_templateSlug p)) "template_slug"
                (JStr (p_templateSlug p)) body in
  let body := assignIf (givenStr (fromName additionalFields)) "from_name"
                (JStr (strOf (fromName additionalFields))) body in
  let body := assignIf (givenStr (replyTo additionalFields)) "reply_to"
                (JStr (strOf (replyTo additionalFields))) body in
  let body := assignIf (givenStr (replyToName additionalFields)) "reply_to_name"
                (JStr (strOf (replyToName additionalFields))) body in
  let body := assignIf (givenStr (ampHtml additionalFields)) "amp_html"
                (JStr (strOf (ampHtml additionalFields))) body in
  let body := assignIf (givenNum (projectId additionalFields)) "project_id"
                (JNum (numOf (projectId additionalFields))) body in
  let body := assignIf (givenNum (templateVersion additionalFields)) "template_version"
                (JNum (numOf (templateVersion additionalFields))) body in
  let body := assignIf (givenNum (campaignId additionalFields)) "campaign_id"
                (JNum (numOf (campaignId additionalFields))) body in
  let body := assignIf (givenStr (cc additionalFields)) "cc"
                (recipientArray (strOf (cc additionalFields))) body in
  let body := assignIf (givenStr (bcc additionalFields)) "bcc"
                (recipientArray (strOf (bcc additionalFields))) body in
  body <- assignJsonIf (metadataJson additionalFields)
            "metadata" "Metadata (JSON)" itemIndex body ;;
  body <- assignJsonIf (substitutionDataJson additionalFields)
            "substitution_data" "Substitution Data (JSON)" itemIndex body ;;
  body <- assignJsonIf (optionsJson additionalFields)
            "options" "Options (JSON)" itemIndex body ;;
  assignJsonIf (attachmentsJson additionalFields)
    "attachments" "Attachments (JSON)" itemIndex body.

(** Source lines 690-795. *)
Definition emailSend `{JsRuntime} `{IExecuteFunctions}
    (p : NodeParameters) (itemIndex : nat) : M unit :=
  if negb (truthyStr (p_html p)) && negb (truthyStr (p_text p))
     && negb (truthyStr (p_templateSlug p))
  then throw (NodeOperationError
                "Provide at least one of: HTML, Text, or Template Slug." itemIndex)
  else
    let to := splitRecipientList (p_to p) in
    if Nat.eqb (length to) 0
    then throw (NodeOperationError
                  (quoted "To" +:+ " must contain at least one valid recipient.") itemIndex)
    else
      body <- sendBody p to itemIndex ;;
      response <- lettrApiRequest POST "/emails" itemIndex body ∅ ;;
      push {| ned_json := JObj response; pairedItem := itemIndex |}.

(** Source lines 797-810. *)
Definition emailGet `{IExecuteFunctions}
    (p : NodeParameters) (itemIndex : nat) : M unit :=
  response <- lettrApiRequest GET ("/emails/" +:+ p_requestId p) itemIndex ∅ ∅ ;;
  push {| ned_json := JObj response; pairedItem := itemIndex |}.

(** Source lines 860-879, the [do ... while (cursor)] loop.  [cursor] is
    the variable of that name ([None] for [undefined]), [entries] the
    accumulator. *)
Fixpoint emailFetchAll `{IExecuteFunctions} (fuel : nat)
    (queryBase : IDataObject) (itemIndex : nat)
    (cursor : option Json) (entries : list Json) : M (list Json) :=
  match fuel with
  | O => outOfFuel
  | S fuel' =>
      let qs := <["per_page" := JNum 100]> queryBase in
      let qs := match cursor with
                | Some c => if truthy c then <["cursor" := c]> qs else qs
                | None => qs
                end in
      response <- lettrApiRequest GET "/emails" itemIndex ∅ qs ;;
      let entries := (entries ++ getResponseList response "emails")%list in
      let pagination := getPagination response in
      let cursor := nullish (getProp pagination "next_cursor") in
      if truthyOpt cursor
      then emailFetchAll fuel' queryBase itemIndex cursor entries
      else ret entries
  end.

(** [startingCursor || undefined] *)
Definition orUndefined (s : string) : option Json :=
  if truthyStr s then Some (JStr s) else None.

(** Source lines 812-899; [emailQueryBase] is the object [queryBase] of
    lines 821-824. *)
Definition emailQueryBase (p : NodeParameters) : IDataObject :=
  let queryBase : IDataObject := ∅ in
  let queryBase := assignIf (truthyStr (p_recipients p)) "recipients"
                     (JStr (p_recipients p)) queryBase in
  let queryBase := assignIf (truthyStr (p_fromDate p)) "from"
                     (JStr (p_fromDate p)) queryBase in
  assignIf (truthyStr (p_toDate p)) "to" (JStr (p_toDate p)) queryBase.

(** Source lines 827-831: the query of the single-page fetch. *)
Definition emailPageQuery (p : NodeParameters) : IDataObject :=
  let qs := <["per_page" := JNum (p_limit p)]> (emailQueryBase p) in
  assignIf (truthyStr (p_cursor p)) "cursor" (JStr (p_cursor p)) qs.

Definition emailGetAll `{IExecuteFunctions} (fuel : nat)
    (p : NodeParameters) (itemIndex : nat) : M unit :=
  let startingCursor := p_cursor p in
  let queryBase := emailQueryBase p in
  if negb (p_returnAll p) then
    let qs := emailPageQuery p in
    response <- lettrApiRequest GET "/emails" itemIndex ∅ qs ;;
    if negb (p_simplify p)
    then push {| ned_json := JObj response; pairedItem := itemIndex |}
    else pushEntries (getResponseList response "emails") itemIndex
  else
    entries <- emailFetchAll fuel queryBase itemIndex (orUndefined startingCursor) [] ;;
    if negb (p_simplify p)
    then push {| ned_json := JObj {[ "data" := JObj {[ "emails" := JArr entries ]} ]};
                 pairedItem := itemIndex |}
    else pushEntries entries itemIndex.

(** Source lines 902-931 and 1022-1051: the two listings that the server
    does not paginate differ in the endpoint and the list field only. *)
Definition plainGetAll `{IExecuteFunctions} (endpoint listField : string)
    (p : NodeParameters) (itemIndex : nat) : M unit :=
  response <- lettrApiRequest GET endpoint itemIndex ∅ ∅ ;;
  let list := getResponseList response listField in
  let outputList := if p_returnAll p then list else slice0 list (p_limit p) in
  if negb (p_simplify p) then
    let outputResponse : IDataObject := response in
    let outputResponse :=
      <["data" := JObj (<[listField := JArr outputList]>
                          (spread (getResponseData response)))]> outputResponse in
    push {| ned_json := JObj outputResponse; pairedItem := itemIndex |}
  else pushEntries outputList itemIndex.

Definition domainGetAll `{IExecuteFunctions} := plainGetAll "/domains" "domains".
Definition webhookGetAll `{IExecuteFunctions} := plainGetAll "/webhooks" "webhooks".

(** Source lines 978-1000, the [while (hasMore)] loop.  [page] is a number
    at the head of every iteration: the loop is entered again only after
    [currentPage < lastPage] held, so [currentPage + 1] is not [NaN]. *)
Fixpoint templateFetchAll `{JsRuntime} `{IExecuteFunctions} (fuel : nat)
    (queryBase : IDataObject) (itemIndex : nat)
    (page : Z) (entries : list Json) : M (list Json) :=
  match fuel with
  | O => outOfFuel
  | S fuel' =>
      let qs := <["page" := JNum page]> (<["per_page" := JNum 100]> queryBase) in
      response <- lettrApiRequest GET "/templates" itemIndex ∅ qs ;;
      let entries := (entries ++ getResponseList response "templates")%list in
      let pagination := getPagination response in
      let currentPage :=
        Number (coalesce (getProp pagination "current_page") (JNum page)) in
      let lastPage :=
        match nullish (getProp pagination "last_page") with
        | Some v => Number v
        | None => currentPage
        end in
      let hasMore := jsLt currentPage lastPage in
      match currentPage with
      | Some c =>
          if hasMore
          then templateFetchAll fuel' queryBase itemIndex (c + 1)%Z entries
          else ret entries
      | None => ret entries
      end
  end.

(** Source lines 933-1020; [templateQueryBase] is the object [queryBase]
    of lines 940-941. *)
Definition templateQueryBase (p : NodeParameters) : IDataObject :=
  let projectId := p_templateProjectId p in
  assignIf (0 <? projectId)%Z "project_id" (JNum projectId) ∅.

(** Source lines 944-948: the query of the single-page fetch. *)
Definition templatePageQuery (p : NodeParameters) : IDataObject :=
  <["page" := JNum (p_templatePage p)]>
    (<["per_page" := JNum (p_limit p)]> (templateQueryBase p)).

Definition templateGetAll `{JsRuntime} `{IExecuteFunctions} (fuel : nat)
    (p : NodeParameters) (itemIndex : nat) : M unit :=
  let startingPage := p_templatePage p in
  let queryBase := templateQueryBase p in
  if negb (p_returnAll p) then
    let qs := templatePageQuery p in
    response <- lettrApiRequest GET "/templates" itemIndex ∅ qs ;;
    if negb (p_simplify p)
    then push {| ned_json := JObj response; pairedItem := itemIndex |}
    else pushEntries (getResponseList response "templates") itemIndex
  else
    entries <- templateFetchAll fuel queryBase itemIndex (Z.max 1 startingPage) [] ;;
    if negb (p_simplify p)
    then push {| ned_json := JObj {[ "data" := JObj {[ "templates" := JArr entries ]} ]};
                 pairedItem := itemIndex |}
    else pushEntries entries itemIndex.

(** Source lines 686-1051: the body of the [try] block for one item. *)
Definition executeItem `{JsRuntime} `{IExecuteFunctions} (fuel : nat)
    (p : NodeParameters) (itemIndex : nat) : M unit :=
  let resource := p_resource p in
  let operation := p_operation p in
  when (String.eqb resource "email")
    (when (String.eqb operation "send") (emailSend p itemIndex) ;;
     when (String.eqb operation "get") (emailGet p itemIndex) ;;
     when (String.eqb operation "getAll") (emailGetAll fuel p itemIndex)) ;;
  when (String.eqb resource "domain" && String.eqb operation "getAll")
    (domainGetAll p itemIndex) ;;
  when (String.eqb resource "template" && String.eqb operation "getAll")
    (templateGetAll fuel p itemIndex) ;;
  when (String.eqb resource "webhook" && String.eqb operation "getAll")
    (webhookGetAll p itemIndex).

(** Source lines 1052-1064: the record pushed by the [catch] block. *)
Definition errorRecord (e : NodeError) (itemIndex : nat) : INodeExecutionData :=
  {| ned_json := JObj {[ "error" := JStr (errorMessage e) ]};
     pairedItem := itemIndex |}.

(** Source lines 684-1065: the loop over the input items, from [itemIndex]
    on. *)
Fixpoint executeItems `{JsRuntime} `{IExecuteFunctions} (fuel : nat)
    (items : list NodeParameters) (itemIndex : nat) : M unit :=
  match items with
  | [] => ret tt
  | p :: rest =>
      fun st =>
        match executeItem fuel p itemIndex st with
        | Some (Done _, st') => executeItems fuel rest (S itemIndex) st'
        | Some (Throw error, st') =>
            if continueOnFail
            then (push (errorRecord error itemIndex) ;;
                  executeItems fuel rest (S itemIndex)) st'
            else Some (Throw error, st')
        | None => None
        end
  end.

Definition initialState : State := {| requests := []; returnData := [] |}.

(** Source lines 680-1068: [execute] resolves with [[returnData]] or
    rejects with the error that escaped the loop. *)
Definition execute `{JsRuntime} `{IExecuteFunctions} (fuel : nat)
    (items : list NodeParameters)
    : option (Outcome (list (list INodeExecutionData)) * State) :=
  (executeItems fuel items 0%nat ;;
   fun st => Some (Done [returnData st], st)) initialState.

(** ** Vocabulary of the statements *)

(** The request that [lettrApiRequest] hands to the host. *)
Definition requestOptions (method : IHttpRequestMethods) (endpoint : string)
    (body qs : IDataObject) : IHttpRequestOptions :=
  {| method := method; baseURL := LETTR_BASE_URL; url := endpoint; json := true;
     body := nonEmpty body; qs := nonEmpty qs |}.

(** The state after one more request, [returnData] untouched. *)
Definition afterRequests (st : State) (reqs : list IHttpRequestOptions) : State :=
  {| requests := (requests st ++ reqs)%list; returnData := returnData st |}.

(** The state after more output records, the request log untouched. *)
Definition afterOutput (st : State) (records : list INodeExecutionData) : State :=
  {| requests := requests st; returnData := (returnData st ++ records)%list |}.

(** One output record per entry, paired to the item. *)
Definition entryRecords (entries : list Json) (itemIndex : nat)
    : list INodeExecutionData :=
  (fun entry => {| ned_json := entry; pairedItem := itemIndex |}) <$> entries.

(** The host answers the requests of [script], issued one after the other
    after [history], with the results listed next to them. *)
Fixpoint serves `{IExecuteFunctions} (history : list IHttpRequestOptions)
    (script : list (IHttpRequestOptions * HttpResult)) : Prop :=
  match script with
  | [] => True
  | (options, result) :: rest =>
      httpRequestWithAuthentication history "lettrApi" options = result
      /\ serves (history ++ [options])%list rest
  end.

(** GET /emails of the exhaustive fetch: [per_page = 100], and the cursor
    when there is one. *)
Definition emailPageRequest (queryBase : IDataObject) (cursor : option Json)
    : IHttpRequestOptions :=
  requestOptions GET "/emails" ∅
    (match cursor with
     | Some c => <["cursor" := c]> (<["per_page" := JNum 100]> queryBase)
     | None => <["per_page" := JNum 100]> queryBase
     end).

(** The continuation token of a response, [pagination.next_cursor ??
    undefined]. *)
Definition nextCursor (response : IDataObject) : option Json :=
  nullish (getProp (getPagination response) "next_cursor").

(** GET /templates of the exhaustive fetch. *)
Definition templatePageRequest (queryBase : IDataObject) (page : Z)
    : IHttpRequestOptions :=
  requestOptions GET "/templates" ∅
    (<["page" := JNum page]> (<["per_page" := JNum 100]> queryBase)).

(** [currentPage], [lastPage] and [hasMore] of source lines 996-998, for the
    response to the request of page [page]. *)
Definition currentPageOf `{JsRuntime} (page : Z) (response : IDataObject) : option Z :=
  Number (coalesce (getProp (getPagination response) "current_page") (JNum page)).

Definition lastPageOf `{JsRuntime} (page : Z) (response : IDataObject) : option Z :=
  match nullish (getProp (getPagination response) "last_page") with
  | Some v => Number v
  | None => currentPageOf page response
  end.

Definition hasMoreAfter `{JsRuntime} (page : Z) (response : IDataObject) : bool :=
  jsLt (currentPageOf page response) (lastPageOf page response).

(** The response reports the integers [current] and [last] as
    [pagination.current_page] and [pagination.last_page]. *)
Definition reportsPages (response : IDataObject) (current last : Z) : Prop :=
  getProp (getPagination response) "current_page" = Some (JNum current)
  /\ getProp (getPagination response) "last_page" = Some (JNum last).

(** The response has no pagination object ([undefined] or [null]). *)
Definition omitsPagination (response : IDataObject) : Prop :=
  nullish (getProp (getResponseData response) "pagination") = None.

(** [pagination.<name>] of a response; [None] when it is [undefined] or
    [null], the cases in which [??] takes its right-hand side. *)
Definition pageField (response : IDataObject) (name : string) : option Json :=
  nullish (getProp (getPagination response) name).

(** What the response to the request for [page] says about the current
    page: the number that [current_page] converts to, or [page] itself when
    the response has no [current_page]. *)
Definition currentAt `{JsRuntime} (page : Z) (response : IDataObject) (current : Z)
    : Prop :=
  match pageField response "current_page" with
  | Some v => Number v = Some current
  | None => current = page
  end.

(** The response has a [last_page], and it converts to the number [last]. *)
Definition lastAt `{JsRuntime} (response : IDataObject) (last : Z) : Prop :=
  exists v, pageField response "last_page" = Some v /\ Number v = Some last.

(** The response to the request for [page] calls for a further page: its
    current page (reported, or [page] by default) is below its
    [last_page]. *)
Definition continuesAt `{JsRuntime} (page : Z) (response : IDataObject) (current : Z)
    : Prop :=
  currentAt page response current
  /\ exists last, lastAt response last /\ (current < last)%Z.

(** The response to the request for [page] calls for no further page: it
    omits the pagination object, or has no [last_page], or its current page
    (reported, or [page] by default) is not below its [last_page]. *)
Definition endsAt `{JsRuntime} (page : Z) (response : IDataObject) : Prop :=
  omitsPagination response
  \/ pageField response "last_page" = None
  \/ exists current last,
       currentAt page response current /\ lastAt response last
       /\ (current >= last)%Z.

(** A run of the page fetch that starts with the request for [page]: each
    response of [steps] calls for a further page (the second component is
    its current page), and [final] ends the run, as a failure or as a
    response that calls for no further page. *)
Fixpoint pagesRun `{JsRuntime} (page : Z) (steps : list (IDataObject * Z))
    (final : HttpResult) : Prop :=
  match steps with
  | [] => match final with
          | HttpFail _ => True
          | HttpOk response => endsAt page response
          end
  | (response, current) :: rest =>
      continuesAt page response current /\ pagesRun (current + 1) rest final
  end.

(** [m] never pushes an output record. *)
Definition quiet {A} (m : M A) : Prop :=
  forall st out st', m st = Some (out, st') -> returnData st' = returnData st.


(** Some content is given: one of HTML, Text, Template Slug. *)
Definition hasContent (p : NodeParameters) : bool :=
  truthyStr (p_html p) || truthyStr (p_text p) || truthyStr (p_templateSlug p).

(** An envelope [{ data: { <listField>: entries, pagination } }]. *)
Definition envelope (listField : string) (entries : list Json)
    (pagination : option Json) : IDataObject :=
  let data : IDataObject := {[ listField := JArr entries ]} in
  {[ "data" := JObj (match pagination with
                     | Some pg => <["pagination" := pg]> data
                     | None => data
                     end) ]}.

(** The value that a free-text JSON input contributes: the parsed text
    when the input is supplied. *)
Definition jsonValue `{JsRuntime} (field : option string) : option Json :=
  if givenStr field then JSON_parse (strOf field) else None.

(** [o] with [key] set when there is a value. *)
Definition assignOpt (value : option Json) (key : string) (o : IDataObject)
    : IDataObject :=
  match value with Some v => <[key := v]> o | None => o end.

(** The optional wire fields of POST /emails, each with the value that a
    supplied input gives it; [None] when the input is not supplied (empty
    string, zero, or not added to the collection).  Written from the field
    list of the outbound interface, next to the three required fields. *)
Definition sendBodyFields `{JsRuntime} (p : NodeParameters)
    : list (string * option Json) :=
  let af := p_additionalFields p in
  let str (s : string) := if truthyStr s then Some (JStr s) else None in
  let ostr (o : option string) := if givenStr o then Some (JStr (strOf o)) else None in
  let onum (o : option Z) := if givenNum o then Some (JNum (numOf o)) else None in
  let olist (o : option string) :=
    if givenStr o then Some (JArr (JStr <$> splitRecipientList (strOf o))) else None in
  [ ("from", Some (JStr (p_from p)));
    ("to", Some (JArr (JStr <$> splitRecipientList (p_to p))));
    ("subject", Some (JStr (p_subject p)));
    ("html", str (p_html p));
    ("text", str (p_text p));
    ("template_slug", str (p_templateSlug p));
    ("from_name", ostr (fromName af));
    ("reply_to", ostr (replyTo af));
    ("reply_to_name", ostr (replyToName af));
    ("amp_html", ostr (ampHtml af));
    ("project_id", onum (projectId af));
    ("template_version", onum (templateVersion af));
    ("campaign_id", onum (campaignId af));
    ("cc", olist (cc af));
    ("bcc", olist (bcc af));
    ("metadata", jsonValue (metadataJson af));
    ("substitution_data", jsonValue (substitutionDataJson af));
    ("options", jsonValue (optionsJson af));
    ("attachments", jsonValue (attachmentsJson af)) ].

(** The free-text JSON inputs of the send operation. *)
Definition jsonInputs (af : AdditionalFields) : list (option string) :=
  [ metadataJson af; substitutionDataJson af; optionsJson af; attachmentsJson af ].

(** A supplied input that [JSON.parse] rejects. *)
Definition malformed `{JsRuntime} (field : option string) : Prop :=
  givenStr field = true /\ JSON_parse (strOf field) = None.

(** ** Test doubles *)

(** A runtime whose [JSON.parse] knows two texts. *)
Definition toyRuntime : JsRuntime :=
  {| JSON_parse := fun s =>
       if String.eqb s "{}" then Some (JObj ∅)
       else if String.eqb s "[1]" then Some (JArr [JNum 1])
       else None;
     ToNumberOther := fun _ => None |}.

(** A host that answers its n-th request with the n-th result of a list,
    and fails once the list is used up. *)
Definition scriptedHost (results : list HttpResult) (continue : bool)
    : IExecuteFunctions :=
  {| httpRequestWithAuthentication := fun history _ _ =>
       default (HttpFail "Service Unavailable") (results !! length history);
     continueOnFail := continue |}.

Definition emptyFields : AdditionalFields :=
  {| ampHtml := None; bcc := None; campaignId := None; cc := None;
     fromName := None; metadataJson := None; optionsJson := None;
     projectId := None; replyTo := None; replyToName := None;
     substitutionDataJson := None; templateVersion := None;
     attachmentsJson := None |}.

(** The parameters of a "getAll" item; every filter has its default. *)
Definition listParams (resource : string) (returnAll : bool) (limit : Z)
    (simplify : bool) : NodeParameters :=
  {| p_resource := resource; p_operation := "getAll";
     p_from := EmptyString; p_to := EmptyString; p_subject := EmptyString; p_html := EmptyString; p_text := EmptyString;
     p_templateSlug := EmptyString; p_additionalFields := emptyFields; p_requestId := EmptyString;
     p_returnAll := returnAll; p_limit := limit; p_simplify := simplify;
     p_recipients := EmptyString; p_fromDate := EmptyString; p_toDate := EmptyString; p_cursor := EmptyString;
     p_templateProjectId := 0; p_templatePage := 1 |}.

(** The parameters of a "send" item. *)
Definition sendParams (from to subject html : string) (af : AdditionalFields)
    : NodeParameters :=
  {| p_resource := "email"; p_operation := "send";
     p_from := from; p_to := to; p_subject := subject; p_html := html;
     p_text := EmptyString; p_templateSlug := EmptyString; p_additionalFields := af;
     p_requestId := EmptyString; p_returnAll := false; p_limit := 50; p_simplify := true;
     p_recipients := EmptyString; p_fromDate := EmptyString; p_toDate := EmptyString; p_cursor := EmptyString;
     p_templateProjectId := 0; p_templatePage := 1 |}.

Definition entryOf (n : Z) : Json := JObj {[ "id" := JNum n ]}.

Definition cursorOf (c : string) : Json := JObj {[ "next_cursor" := JStr c ]}.

Definition pagesOf (current last : Z) : Json :=
  JObj {[ "current_page" := JNum current; "last_page" := JNum last ]}.

(** Three pages of emails, the first two with a continuation token. *)
Definition cursorPage1 : IDataObject :=
  envelope "emails" [entryOf 1; entryOf 2] (Some (cursorOf "c1")).
Definition cursorPage2 : IDataObject :=
  envelope "emails" [entryOf 3] (Some (cursorOf "c2")).
Definition cursorPage3 : IDataObject :=
  envelope "emails" [entryOf 4; entryOf 5] None.

Definition cursorHost : IExecuteFunctions :=
  scriptedHost [HttpOk cursorPage1; HttpOk cursorPage2; HttpOk cursorPage3] false.

(** Three pages of templates reporting (1,3), (2,3), (3,3). *)
Definition templatePage (n : Z) : IDataObject :=
  envelope "templates" [entryOf n] (Some (pagesOf n 3)).

Definition pageHost : IExecuteFunctions :=
  scriptedHost [HttpOk (templatePage 1); HttpOk (templatePage 2);
                HttpOk (templatePage 3)] false.

(** A server that answers every request with the same page, which has a
    [last_page] and no [current_page]. *)
Definition lastOnlyPage : IDataObject :=
  envelope "templates" [entryOf 1] (Some (JObj {[ "last_page" := JNum 3 ]})).

Definition lastOnlyHost : IExecuteFunctions :=
  {| httpRequestWithAuthentication := fun _ _ _ => HttpOk lastOnlyPage;
     continueOnFail := false |}.

(** A server without memory: it answers by the page that the request asks
    for, out of three pages. *)
Definition pageKeyedHost : IExecuteFunctions :=
  {| httpRequestWithAuthentication := fun _ _ options =>
       match qs options with
       | Some q => match q !! "page" with
                   | Some (JNum n) => HttpOk (templatePage n)
                   | _ => HttpFail "Bad Request"
                   end
       | None => HttpFail "Bad Request"
       end;
     continueOnFail := false |}.

(** A listing of five entries under [listField], answered to the first
    request. *)
Definition fiveEntries (listField : string) : IDataObject :=
  envelope listField [entryOf 1; entryOf 2; entryOf 3; entryOf 4; entryOf 5] None.

Definition listingHost (listField : string) : IExecuteFunctions :=
  scriptedHost [HttpOk (fiveEntries listField)] false.

(** A server that answers a request for two emails with three. *)
Definition threeEmails : IDataObject :=
  envelope "emails" [entryOf 1; entryOf 2; entryOf 3] None.

Definition generousHost : IExecuteFunctions :=
  scriptedHost [HttpOk threeEmails] false.

(** A host whose every request fails. *)
Definition downHost (continue : bool) : IExecuteFunctions := scriptedHost [] continue.

(** A host that accepts one request. *)
Definition acceptingHost : IExecuteFunctions :=
  scriptedHost [HttpOk {[ "request_id" := JStr "r1" ]}] false.

Definition someFields : AdditionalFields :=
  {| ampHtml := None; bcc := None; campaignId := Some 0%Z;
     cc := Some "d@x.com; e@x.com"; fromName := Some EmptyString;
     metadataJson := Some "{}"; optionsJson := None;
     projectId := Some 7%Z; replyTo := Some "r@x.com"; replyToName := None;
     substitutionDataJson := None; templateVersion := None;
     attachmentsJson := Some "[1]" |}.

Definition brokenFields : AdditionalFields :=
  {| ampHtml := None; bcc := None; campaignId := None; cc := None;
     fromName := None; metadataJson := Some "{}"; optionsJson := Some "{oops";
     projectId := None; replyTo := None; replyToName := None;
     substitutionDataJson := None; templateVersion := None;
     attachmentsJson := None |}.

(** Every code unit of [s] satisfies [P]. *)
Fixpoint allChars (P : ascii -> bool) (s : string) : bool :=
  match s with
  | EmptyString => true
  | String c rest => P c && allChars P rest
  end.

Definition notSeparator (c : ascii) : bool := negb (isSeparator c).

Definition startsWhite (s : string) : bool :=
  match s with
  | String c _ => isWhiteSpace c
  | EmptyString => false
  end.

Fixpoint endsWhite (s : string) : bool :=
  match s with
  | EmptyString => false
  | String c EmptyString => isWhiteSpace c
  | String _ rest => endsWhite rest
  end.

(** The input of the example: the third separator is a line feed. *)
Definition exampleRecipients : string :=
  "a@x.com, b@x.com;c@x.com" +:+ String "010"%char "d@x.com".

(** ** Vocabulary of the further statements *)

Definition errorItemIndex (e : NodeError) : nat :=
  match e with
  | NodeOperationError _ i => i
  | NodeApiError _ i => i
  end.

(** Every error that [m] throws carries the index [itemIndex]. *)
Definition tagged {A} (itemIndex : nat) (m : M A) : Prop :=
  forall st e st', m st = Some (Throw e, st') -> errorItemIndex e = itemIndex.

(** [m] only appends to [returnData], and what it appends is paired to
    [itemIndex]. *)
Definition pairsTo {A} (itemIndex : nat) (m : M A) : Prop :=
  forall st out st', m st = Some (out, st') ->
    exists new, returnData st' = (returnData st ++ new)%list
                /\ Forall (fun r => pairedItem r = itemIndex) new.

(** [m] returns, whatever the state, and issues no request. *)
Definition offline {A} (m : M A) : Prop :=
  forall st, exists out st', m st = Some (out, st') /\ requests st' = requests st.

(** [m] returns, whatever the state, after at most one request. *)
Definition oneShot {A} (m : M A) : Prop :=
  forall st, exists out st' reqs,
    m st = Some (out, st')
    /\ requests st' = (requests st ++ reqs)%list /\ (length reqs <= 1)%nat.

(** The pairs of resource and operation that [execute] has a block for. *)
Definition supported (resource operation : string) : bool :=
  (String.eqb resource "email"
   && (String.eqb operation "send" || String.eqb operation "get"
       || String.eqb operation "getAll"))
  || ((String.eqb resource "domain" || String.eqb resource "template"
       || String.eqb resource "webhook")
      && String.eqb operation "getAll").

(** The items that run one of the two fetch loops. *)
Definition exhaustive (p : NodeParameters) : bool :=
  p_returnAll p && String.eqb (p_operation p) "getAll"
  && (String.eqb (p_resource p) "email" || String.eqb (p_resource p) "template").

(** An entry as a recipient list holds it: not empty, no white space at
    either end, no separator inside. *)
Definition cleanEntry (e : string) : bool :=
  truthyStr e && negb (startsWhite e) && negb (endsWhite e)
  && allChars notSeparator e.

(** The entries written one after the other with [sep] between them. *)
Fixpoint joinWith (sep : ascii) (l : list string) : string :=
  match l with
  | [] => EmptyString
  | [e] => e
  | e :: rest => e +:+ String sep (joinWith sep rest)
  end.

(** The query of GET /emails: the three filters when they are not empty,
    the page size, the cursor when there is one. *)
Definition emailQueryFields (p : NodeParameters) (perPage : Z)
    (cursor : option Json) : list (string * option Json) :=
  let str (s : string) := if truthyStr s then Some (JStr s) else None in
  [ ("recipients", str (p_recipients p));
    ("from", str (p_fromDate p));
    ("to", str (p_toDate p));
    ("per_page", Some (JNum perPage));
    ("cursor", cursor) ].

(** The query of GET /templates: the project when it is positive, the page
    size, the page. *)
Definition templateQueryFields (p : NodeParameters) (perPage page : Z)
    : list (string * option Json) :=
  [ ("project_id", if (0 <? p_templateProjectId p)%Z
                   then Some (JNum (p_templateProjectId p)) else None);
    ("per_page", Some (JNum perPage));
    ("page", Some (JNum page)) ].

(** [options] is a GET of [endpoint] without body whose query holds exactly
    the listed fields, each with the listed value ([None]: absent). *)
Definition asksFor (endpoint : string) (fields : list (string * option Json))
    (options : IHttpRequestOptions) : Prop :=
  method options = GET /\ url options = endpoint /\ body options = None
  /\ exists q,
       qs options = Some q
       /\ (forall key value, (key, value) ∈ fields -> q !! key = value)
       /\ (forall key, is_Some (q !! key) -> key ∈ (fst <$> fields)).

(** The item indices that some records are paired to, in order. *)
Definition pairedItems (records : list INodeExecutionData) : list nat :=
  pairedItem <$> records.

(** A server that always hands out a further cursor. *)
Definition endlessCursorHost : IExecuteFunctions :=
  {| httpRequestWithAuthentication := fun _ _ _ =>
       HttpOk (envelope "emails" [entryOf 1] (Some (cursorOf "again")));
     continueOnFail := false |}.

(** A server that always reports page 1 of 2. *)
Definition endlessPageHost : IExecuteFunctions :=
  {| httpRequestWithAuthentication := fun _ _ _ =>
       HttpOk (envelope "templates" [entryOf 1] (Some (pagesOf 1 2)));
     continueOnFail := false |}.

(** A server whose page report is not a number. *)
Definition oddPage : IDataObject :=
  envelope "templates" [entryOf 1]
    (Some (JObj {[ "current_page" := JStr "first"; "last_page" := JNum 3 ]})).

Definition oddPageHost : IExecuteFunctions := scriptedHost [HttpOk oddPage] false.

(** The parameters of a "get" item. *)
Definition getParams (requestId : string) : NodeParameters :=
  {| p_resource := "email"; p_operation := "get";
     p_from := EmptyString; p_to := EmptyString; p_subject := EmptyString;
     p_html := EmptyString; p_text := EmptyString; p_templateSlug := EmptyString;
     p_additionalFields := emptyFields; p_requestId := requestId;
     p_returnAll := false; p_limit := 50; p_simplify := true;
     p_recipients := EmptyString; p_fromDate := EmptyString;
     p_toDate := EmptyString; p_cursor := EmptyString;
     p_templateProjectId := 0; p_templatePage := 1 |}.

(** An item for a pair that the node has no block for: "get" on domains. *)
Definition strayParams : NodeParameters :=
  {| p_resource := "domain"; p_operation := "get";
     p_from := EmptyString; p_to := EmptyString; p_subject := EmptyString;
     p_html := EmptyString; p_text := EmptyString; p_templateSlug := EmptyString;
     p_additionalFields := emptyFields; p_requestId := "r1";
     p_returnAll := true; p_limit := 50; p_simplify := true;
     p_recipients := EmptyString; p_fromDate := EmptyString;
     p_toDate := EmptyString; p_cursor := EmptyString;
     p_templateProjectId := 0; p_templatePage := 1 |}.

(** A listing of emails filtered by recipient and date. *)
Definition filteredParams (returnAll : bool) : NodeParameters :=
  {| p_resource := "email"; p_operation := "getAll";
     p_from := EmptyString; p_to := EmptyString; p_subject := EmptyString;
     p_html := EmptyString; p_text := EmptyString; p_templateSlug := EmptyString;
     p_additionalFields := emptyFields; p_requestId := EmptyString;
     p_returnAll := returnAll; p_limit := 10; p_simplify := true;
     p_recipients := "b@x.com"; p_fromDate := "2024-01-01";
     p_toDate := EmptyString; p_cursor := EmptyString;
     p_templateProjectId := 0; p_templatePage := 1 |}.

(** A listing of the templates of project 7, from page 2. *)
Definition projectParams (returnAll : bool) : NodeParameters :=
  {| p_resource := "template"; p_operation := "getAll";
     p_from := EmptyString; p_to := EmptyString; p_subject := EmptyString;
     p_html := EmptyString; p_text := EmptyString; p_templateSlug := EmptyString;
     p_additionalFields := emptyFields; p_requestId := EmptyString;
     p_returnAll := returnAll; p_limit := 10; p_simplify := true;
     p_recipients := EmptyString; p_fromDate := EmptyString;
     p_toDate := EmptyString; p_cursor := EmptyString;
     p_templateProjectId := 7; p_templatePage := 2 |}.

(** Two pages of emails, then the server is down. *)
Definition breakingCursorHost (continue : bool) : IExecuteFunctions :=
  scriptedHost [HttpOk cursorPage1; HttpOk cursorPage2] continue.

(** Two pages of templates, then the server is down. *)
Definition breakingPageHost : IExecuteFunctions :=
  scriptedHost [HttpOk (templatePage 1); HttpOk (templatePage 2)] false.

(** * Properties *)

(** ** The building blocks on small inputs *)

Example split_empty : split EmptyString = [EmptyString].
Proof. reflexivity. Qed.

Example split_adjacent : split "a,,b" = ["a"; EmptyString; "b"].
Proof. reflexivity. Qed.

Example splitRecipientList_blank : splitRecipientList " ,; " = [].
Proof. reflexivity. Qed.

Example slice0_within : slice0 [1; 2; 3; 4; 5]%Z 2 = [1; 2]%Z.
Proof. reflexivity. Qed.

Example slice0_beyond : slice0 [1; 2; 3]%Z 250 = [1; 2; 3]%Z.
Proof. reflexivity. Qed.

(** A negative end counts from the back. *)
Example slice0_negative : slice0 [1; 2; 3; 4; 5]%Z (-2) = [1; 2; 3]%Z.
Proof. reflexivity. Qed.

Example spread_array : spread (JArr [JNum 1; JNum 2]) !! "1" = Some (JNum 2).
Proof. reflexivity. Qed.

(** A token that is not a string ends the cursor loop when it is falsy. *)
Example zero_token_stops :
  truthyOpt (nextCursor (envelope "emails" [] (Some (JObj {[ "next_cursor" := JNum 0 ]}))))
  = false.
Proof. reflexivity. Qed.

Example null_token_is_absent :
  nextCursor (envelope "emails" [] (Some (JObj {[ "next_cursor" := JNull ]}))) = None.
Proof. reflexivity. Qed.

(** A response that lacks [current_page] only: the page asked for stands in
    for it, and the loop goes on while that page is below [last_page]. *)
Example lacks_current_page_only :
  @hasMoreAfter toyRuntime 1
    (envelope "templates" [] (Some (JObj {[ "last_page" := JNum 3 ]}))) = true
  /\ @hasMoreAfter toyRuntime 3
       (envelope "templates" [] (Some (JObj {[ "last_page" := JNum 3 ]}))) = false.
Proof. split; reflexivity. Qed.

(** ** Recipient lists *)

Lemma split_plain (s : string) :
  allChars notSeparator s = true -> split s = [s].
Proof.
  induction s as [|c rest IH]; simpl; [reflexivity|].
  unfold notSeparator at 1. intros [Hc Hrest]%andb_true_iff.
  apply negb_true_iff in Hc. rewrite Hc, (IH Hrest). reflexivity.
Qed.

Lemma split_at (s1 s2 : string) (c : ascii) :
  allChars notSeparator s1 = true -> isSeparator c = true ->
  split (s1 +:+ String c s2) = s1 :: split s2.
Proof.
  intros H1 Hc. induction s1 as [|d rest IH]; simpl.
  - rewrite Hc. reflexivity.
  - simpl in H1. apply andb_true_iff in H1 as [Hd Hrest].
    apply negb_true_iff in Hd. rewrite Hd, (IH Hrest). reflexivity.
Qed.

Lemma trimStart_spec (s : string) :
  exists l, s = l +:+ trimStart s
            /\ allChars isWhiteSpace l = true
            /\ startsWhite (trimStart s) = false.
Proof.
  induction s as [|c rest (l & Heq & Hl & Hs)].
  - exists EmptyString. repeat split.
  - simpl. destruct (isWhiteSpace c) eqn:Hc.
    + exists (String c l). simpl. rewrite Hc, Hl.
      split; [exact (f_equal (String c) Heq) | split; [reflexivity | exact Hs]].
    + exists EmptyString. simpl. repeat split. exact Hc.
Qed.

Lemma trimEnd_spec (s : string) :
  exists r, s = trimEnd s +:+ r
            /\ allChars isWhiteSpace r = true
            /\ endsWhite (trimEnd s) = false
            /\ (startsWhite s = false -> startsWhite (trimEnd s) = false).
Proof.
  induction s as [|c rest (r & Heq & Hr & He & Hs)].
  - exists EmptyString. repeat split.
  - simpl. destruct (trimEnd rest) as [|d kept] eqn:Hk.
    + destruct (isWhiteSpace c) eqn:Hc.
      * exists (String c r). simpl in *. rewrite Hc, Hr.
        split; [exact (f_equal (String c) Heq) | repeat split].
      * exists r. simpl in *. rewrite Hc.
        split; [exact (f_equal (String c) Heq) | auto].
    + exists r. simpl in *.
      split; [exact (f_equal (String c) Heq) | auto].
Qed.

Lemma trim_spec (s : string) :
  exists l r, s = l +:+ trim s +:+ r
              /\ allChars isWhiteSpace l = true
              /\ allChars isWhiteSpace r = true
              /\ startsWhite (trim s) = false
              /\ endsWhite (trim s) = false.
Proof.
  destruct (trimStart_spec s) as (l & Hl & Hwl & Hs).
  destruct (trimEnd_spec (trimStart s)) as (r & Hr & Hwr & He & Hkeep).
  exists l, r. unfold trim. rewrite <- Hr. repeat split; auto.
Qed.

Lemma length_positive (s : string) : (0 < String.length s)%nat <-> s <> EmptyString.
Proof. destruct s; simpl; split; intros; try lia; congruence. Qed.

(** C8. [splitRecipientList] cuts its input at every [,], [;] and line
    feed, trims each piece and drops the pieces that are empty after
    trimming, keeping the order; on the input of the example it gives the
    four addresses. *)
Theorem splitRecipientList_spec :
  splitRecipientList exampleRecipients = ["a@x.com"; "b@x.com"; "c@x.com"; "d@x.com"]
  /\ (forall s, allChars notSeparator s = true -> split s = [s])
  /\ (forall s1 c s2, allChars notSeparator s1 = true -> isSeparator c = true ->
        split (s1 +:+ String c s2) = s1 :: split s2)
  /\ (forall c, isSeparator c = true <->
        c = ","%char \/ c = ";"%char \/ c = "010"%char)
  /\ (forall s, exists l r, s = l +:+ trim s +:+ r
        /\ allChars isWhiteSpace l = true /\ allChars isWhiteSpace r = true
        /\ startsWhite (trim s) = false /\ endsWhite (trim s) = false)
  /\ (forall value,
        splitRecipientList value
        = filter (fun entry => entry <> EmptyString) (trim <$> split value)).
Proof.
  split; [reflexivity|].
  split; [exact split_plain|].
  split; [intros s1 c s2; apply split_at|].
  split.
  { intros c. split.
    - destruct c as [[] [] [] [] [] [] [] []]; simpl; intros Hc;
        try discriminate; auto.
    - intros [-> | [-> | ->]]; reflexivity. }
  split; [exact trim_spec|].
  intros value. unfold splitRecipientList.
  induction (trim <$> split value) as [|e l IH]; [reflexivity|].
  rewrite !filter_cons, IH.
  destruct (decide (0 < String.length e)%nat) as [H|H];
    destruct (decide (e <> EmptyString)) as [H'|H'];
    try reflexivity; exfalso; rewrite length_positive in H; tauto.
Qed.

(** ** Running requests and pushes *)

Lemma afterRequests_app (st : State) (r1 r2 : list IHttpRequestOptions) :
  afterRequests (afterRequests st r1) r2 = afterRequests st (r1 ++ r2)%list.
Proof. unfold afterRequests. simpl. rewrite app_assoc. reflexivity. Qed.

Lemma afterOutput_nil (st : State) : afterOutput st [] = st.
Proof. destruct st. unfold afterOutput. simpl. rewrite app_nil_r. reflexivity. Qed.

Lemma afterOutput_app (st : State) (r1 r2 : list INodeExecutionData) :
  afterOutput (afterOutput st r1) r2 = afterOutput st (r1 ++ r2)%list.
Proof. unfold afterOutput. simpl. rewrite app_assoc. reflexivity. Qed.

Lemma pushEntries_run (l : list Json) (itemIndex : nat) (st : State) :
  pushEntries l itemIndex st = Some (Done tt, afterOutput st (entryRecords l itemIndex)).
Proof.
  revert st. induction l as [|entry rest IH]; intros st; simpl.
  - unfold ret. rewrite afterOutput_nil. reflexivity.
  - unfold bind, push. rewrite IH.
    change {| requests := requests st;
              returnData := (returnData st ++ [ {| ned_json := entry; pairedItem := itemIndex |} ])%list |}
      with (afterOutput st [ {| ned_json := entry; pairedItem := itemIndex |} ]).
    rewrite afterOutput_app. reflexivity.
Qed.

Section Properties.

Context {runtime : JsRuntime} {host : IExecuteFunctions}.

Lemma lettrApiRequest_run (method : IHttpRequestMethods) (endpoint : string)
    (itemIndex : nat) (body qs : IDataObject) (st : State) :
  lettrApiRequest method endpoint itemIndex body qs st
  = let options := requestOptions method endpoint body qs in
    match httpRequestWithAuthentication (requests st) "lettrApi" options with
    | HttpOk response => Some (Done response, afterRequests st [options])
    | HttpFail message =>
        Some (Throw (NodeApiError message itemIndex), afterRequests st [options])
    end.
Proof. reflexivity. Qed.

(** ** Cursor-style exhaustive fetch *)

(** One turn of the [do ... while] loop. *)
Lemma emailFetchAll_turn (fuel : nat) (queryBase : IDataObject) (itemIndex : nat)
    (cursor : option Json) (entries : list Json) (st : State) :
  match cursor with Some c => truthy c = true | None => True end ->
  emailFetchAll (S fuel) queryBase itemIndex cursor entries st
  = let options := emailPageRequest queryBase cursor in
    match httpRequestWithAuthentication (requests st) "lettrApi" options with
    | HttpOk response =>
        let entries' := (entries ++ getResponseList response "emails")%list in
        if truthyOpt (nextCursor response)
        then emailFetchAll fuel queryBase itemIndex (nextCursor response) entries'
               (afterRequests st [options])
        else Some (Done entries', afterRequests st [options])
    | HttpFail message =>
        Some (Throw (NodeApiError message itemIndex), afterRequests st [options])
    end.
Proof.
  intros Hc. simpl. unfold bind. rewrite lettrApiRequest_run.
  destruct cursor as [c|]; [rewrite Hc|]; simpl;
    unfold emailPageRequest, nextCursor;
    destruct (httpRequestWithAuthentication _ _ _); try reflexivity;
    destruct (truthyOpt _); reflexivity.
Qed.

Lemma emailFetchAll_pages (queryBase : IDataObject) (itemIndex : nat)
    (pages : list (IDataObject * string)) (last : IDataObject) :
  Forall (fun pc => nextCursor pc.1 = Some (JStr pc.2) /\ pc.2 <> EmptyString) pages ->
  truthyOpt (nextCursor last) = false ->
  forall (cursor : option Json) (entries : list Json) (st : State) (fuel : nat),
  match cursor with Some c => truthy c = true | None => True end ->
  let cursors := cursor :: ((fun pc => Some (JStr pc.2)) <$> pages) in
  let responses := ((fst <$> pages) ++ [last])%list in
  let reqs := emailPageRequest queryBase <$> cursors in
  serves (requests st) (zip reqs (HttpOk <$> responses)) ->
  (length pages < fuel)%nat ->
  emailFetchAll fuel queryBase itemIndex cursor entries st
  = Some (Done (entries ++ concat ((fun r => getResponseList r "emails") <$> responses))%list,
          afterRequests st reqs).
Proof.
  intros Hpages Hlast.
  induction Hpages as [|[r c] pages [Hr Hc] _ IH];
    intros cursor entries st fuel Hcur cursors responses reqs Hserve Hfuel;
    (destruct fuel as [|fuel]; [simpl in Hfuel; lia|]);
    rewrite emailFetchAll_turn by exact Hcur;
    simpl in Hserve; destruct Hserve as [Hfirst Hrest]; cbv zeta; rewrite Hfirst.
  - rewrite Hlast. subst responses reqs cursors. simpl. rewrite app_nil_r. reflexivity.
  - simpl in Hr, Hc. rewrite Hr. simpl.
    assert (Ht : truthyStr c = true) by (destruct c; [congruence | reflexivity]).
    rewrite Ht.
    rewrite (IH (Some (JStr c))); [| exact Ht | exact Hrest | simpl in Hfuel; lia].
    rewrite afterRequests_app. subst responses reqs cursors. simpl.
    rewrite <- app_assoc. reflexivity.
Qed.

Lemma nonEmpty_insert (key : string) (v : Json) (o : IDataObject) :
  nonEmpty (<[key := v]> o) = Some (<[key := v]> o).
Proof.
  unfold nonEmpty. destruct (Nat.eqb_spec (size (<[key := v]> o)) 0) as [E|E];
    [|reflexivity].
  apply map_size_empty_iff in E. exfalso. exact (insert_non_empty _ _ _ E).
Qed.

Lemma emailPageRequest_shape (queryBase : IDataObject) (cursor : option Json) :
  exists q, qs (emailPageRequest queryBase cursor) = Some q
            /\ q !! "per_page" = Some (JNum 100)
            /\ method (emailPageRequest queryBase cursor) = GET
            /\ url (emailPageRequest queryBase cursor) = "/emails"
            /\ body (emailPageRequest queryBase cursor) = None.
Proof.
  unfold emailPageRequest, requestOptions. simpl.
  destruct cursor as [c|]; rewrite nonEmpty_insert; eexists; (split; [reflexivity|]);
    repeat split.
  - rewrite lookup_insert_ne by discriminate. apply lookup_insert_eq.
  - apply lookup_insert_eq.
Qed.

(** C1. The exhaustive cursor fetch of the email "getAll" operation: when
    the host answers page after page, each but the last with a non-empty
    string in [pagination.next_cursor] and the last with that token absent,
    null or empty, the loop issues exactly one GET /emails per page with
    [per_page = 100], the first with the starting cursor (if any) and each
    later one with the token of the response before it, stops after the last
    page, and returns the pages' "emails" entries concatenated in the order
    of arrival.  With two pages carrying a token and a third without, that
    is exactly three requests. *)
Theorem email_fetchAll_cursor (queryBase : IDataObject) (itemIndex : nat)
    (startingCursor : string) (pages : list (IDataObject * string))
    (last : IDataObject) (entries : list Json) (st : State) (fuel : nat) :
  let cursors := orUndefined startingCursor :: ((fun pc => Some (JStr pc.2)) <$> pages) in
  let responses := ((fst <$> pages) ++ [last])%list in
  let reqs := emailPageRequest queryBase <$> cursors in
  Forall (fun pc => nextCursor pc.1 = Some (JStr pc.2) /\ pc.2 <> EmptyString) pages ->
  nextCursor last = None \/ nextCursor last = Some (JStr EmptyString) ->
  serves (requests st) (zip reqs (HttpOk <$> responses)) ->
  (length pages < fuel)%nat ->
  emailFetchAll fuel queryBase itemIndex (orUndefined startingCursor) entries st
  = Some (Done (entries ++ concat ((fun r => getResponseList r "emails") <$> responses))%list,
          afterRequests st reqs)
  /\ length reqs = S (length pages)
  /\ Forall (fun options =>
       exists q, qs options = Some q /\ q !! "per_page" = Some (JNum 100)
                 /\ method options = GET /\ url options = "/emails"
                 /\ body options = None) reqs.
Proof.
  intros cursors responses reqs Hpages Hlast Hserve Hfuel.
  split; [|split].
  - apply emailFetchAll_pages; try assumption.
    + destruct Hlast as [-> | ->]; reflexivity.
    + unfold orUndefined. destruct (truthyStr startingCursor) eqn:E; [exact E | exact I].
  - subst reqs cursors. simpl. rewrite !length_fmap. reflexivity.
  - subst reqs. apply Forall_fmap, Forall_forall. intros c _.
    apply emailPageRequest_shape.
Qed.

(** ** Page-style exhaustive fetch *)

(** One turn of the [while (hasMore)] loop. *)
Lemma templateFetchAll_turn (fuel : nat) (queryBase : IDataObject) (itemIndex : nat)
    (page : Z) (entries : list Json) (st : State) :
  templateFetchAll (S fuel) queryBase itemIndex page entries st
  = let options := templatePageRequest queryBase page in
    match httpRequestWithAuthentication (requests st) "lettrApi" options with
    | HttpOk response =>
        let entries' := (entries ++ getResponseList response "templates")%list in
        match (if hasMoreAfter page response
               then currentPageOf page response else None) with
        | Some c => templateFetchAll fuel queryBase itemIndex (c + 1)%Z entries'
                      (afterRequests st [options])
        | None => Some (Done entries', afterRequests st [options])
        end
    | HttpFail message =>
        Some (Throw (NodeApiError message itemIndex), afterRequests st [options])
    end.
Proof.
  simpl. unfold bind. rewrite lettrApiRequest_run. cbv zeta.
  change (requestOptions GET "/templates" ∅ _)
    with (templatePageRequest queryBase page).
  destruct (httpRequestWithAuthentication _ _ _) as [response|message];
    [|reflexivity].
  unfold hasMoreAfter, lastPageOf.
  fold (currentPageOf page response).
  destruct (currentPageOf page response) as [c|]; [|reflexivity].
  destruct (jsLt _ _); reflexivity.
Qed.

Lemma reportsPages_current (page current last : Z) (response : IDataObject) :
  reportsPages response current last ->
  currentPageOf page response = Some current
  /\ lastPageOf page response = Some last
  /\ hasMoreAfter page response = (current <? last)%Z.
Proof.
  intros [Hc Hl]. unfold hasMoreAfter, lastPageOf, currentPageOf.
  rewrite Hc, Hl. repeat split.
Qed.

Lemma templateFetchAll_pages (queryBase : IDataObject) (itemIndex : nat)
    (pages : list (IDataObject * (Z * Z))) (last : IDataObject) (current final : Z) :
  Forall (fun pg => reportsPages pg.1 pg.2.1 pg.2.2 /\ (pg.2.1 < pg.2.2)%Z) pages ->
  reportsPages last current final -> (current >= final)%Z ->
  forall (page : Z) (entries : list Json) (st : State) (fuel : nat),
  let numbers := page :: ((fun pg => pg.2.1 + 1)%Z <$> pages) in
  let responses := ((fst <$> pages) ++ [last])%list in
  let reqs := templatePageRequest queryBase <$> numbers in
  serves (requests st) (zip reqs (HttpOk <$> responses)) ->
  (length pages < fuel)%nat ->
  templateFetchAll fuel queryBase itemIndex page entries st
  = Some (Done (entries ++ concat ((fun r => getResponseList r "templates") <$> responses))%list,
          afterRequests st reqs).
Proof.
  intros Hpages Hlast Hge.
  induction Hpages as [|[r [c l]] pages [Hr Hlt] _ IH];
    intros page entries st fuel numbers responses reqs Hserve Hfuel;
    (destruct fuel as [|fuel]; [simpl in Hfuel; lia|]);
    rewrite templateFetchAll_turn;
    simpl in Hserve; destruct Hserve as [Hfirst Hrest]; cbv zeta; rewrite Hfirst.
  - destruct (reportsPages_current page _ _ _ Hlast) as (_ & _ & ->).
    replace (current <? final)%Z with false by (symmetry; apply Z.ltb_ge; lia).
    subst responses reqs numbers. simpl. rewrite app_nil_r. reflexivity.
  - simpl in Hr, Hlt.
    destruct (reportsPages_current page _ _ _ Hr) as (-> & _ & ->).
    replace (c <? l)%Z with true by (symmetry; apply Z.ltb_lt; lia).
    rewrite (IH (c + 1)%Z); [| exact Hrest | simpl in Hfuel; lia].
    rewrite afterRequests_app. subst responses reqs numbers. simpl.
    rewrite <- app_assoc. reflexivity.
Qed.

Lemma templatePageRequest_shape (queryBase : IDataObject) (page : Z) :
  exists q, qs (templatePageRequest queryBase page) = Some q
            /\ q !! "page" = Some (JNum page)
            /\ q !! "per_page" = Some (JNum 100)
            /\ method (templatePageRequest queryBase page) = GET
            /\ url (templatePageRequest queryBase page) = "/templates"
            /\ body (templatePageRequest queryBase page) = None.
Proof.
  unfold templatePageRequest, requestOptions. simpl.
  rewrite nonEmpty_insert; eexists; (split; [reflexivity|]); repeat split.
  - apply lookup_insert_eq.
  - rewrite lookup_insert_ne by discriminate. apply lookup_insert_eq.
Qed.

(** C2. The exhaustive page fetch of the template "getAll" operation: when
    the host answers page after page, each but the last reporting
    [current_page < last_page] and the last reporting
    [current_page >= last_page], the loop issues exactly one GET /templates
    per page with [per_page = 100], the first for [max(1, startingPage)] and
    each later one for the [current_page] of the response before it plus
    one, stops after the last page, and returns the pages' "templates"
    entries in the order of arrival.  For the reports (1,3), (2,3), (3,3)
    that is exactly three requests. *)
Theorem template_fetchAll_pages (queryBase : IDataObject) (itemIndex : nat)
    (startingPage : Z) (pages : list (IDataObject * (Z * Z)))
    (last : IDataObject) (current final : Z)
    (entries : list Json) (st : State) (fuel : nat) :
  let numbers := Z.max 1 startingPage :: ((fun pg => pg.2.1 + 1)%Z <$> pages) in
  let responses := ((fst <$> pages) ++ [last])%list in
  let reqs := templatePageRequest queryBase <$> numbers in
  Forall (fun pg => reportsPages pg.1 pg.2.1 pg.2.2 /\ (pg.2.1 < pg.2.2)%Z) pages ->
  reportsPages last current final -> (current >= final)%Z ->
  serves (requests st) (zip reqs (HttpOk <$> responses)) ->
  (length pages < fuel)%nat ->
  templateFetchAll fuel queryBase itemIndex (Z.max 1 startingPage) entries st
  = Some (Done (entries ++ concat ((fun r => getResponseList r "templates") <$> responses))%list,
          afterRequests st reqs)
  /\ length reqs = S (length pages)
  /\ Forall2 (fun options number =>
       exists q, qs options = Some q /\ q !! "page" = Some (JNum number)
                 /\ q !! "per_page" = Some (JNum 100)
                 /\ method options = GET /\ url options = "/templates"
                 /\ body options = None) reqs numbers.
Proof.
  intros numbers responses reqs Hpages Hlast Hge Hserve Hfuel.
  split; [|split].
  - eapply templateFetchAll_pages; eassumption.
  - subst reqs numbers. simpl. rewrite !length_fmap. reflexivity.
  - subst reqs. apply Forall2_fmap_l, Forall_Forall2_diag, Forall_forall.
    intros n _. apply templatePageRequest_shape.
Qed.

Lemma jsLt_irrefl (a : option Z) : jsLt a a = false.
Proof. destruct a as [x|]; simpl; [apply Z.ltb_irrefl | reflexivity]. Qed.

Lemma currentAt_read (page current : Z) (response : IDataObject) :
  currentAt page response current -> currentPageOf page response = Some current.
Proof.
  unfold currentAt, currentPageOf, coalesce, pageField.
  destruct (nullish (getProp (getPagination response) "current_page")) as [v|].
  - auto.
  - intros ->. reflexivity.
Qed.

Lemma lastAt_read (page last : Z) (response : IDataObject) :
  lastAt response last -> lastPageOf page response = Some last.
Proof.
  unfold lastAt, lastPageOf, pageField. intros (v & -> & Hv). exact Hv.
Qed.

Lemma omitsPagination_fields (response : IDataObject) (name : string) :
  omitsPagination response -> pageField response name = None.
Proof.
  unfold omitsPagination, pageField, getPagination, coalesce. intros ->.
  simpl. rewrite lookup_empty. reflexivity.
Qed.

Lemma continuesAt_next (page current : Z) (response : IDataObject) :
  continuesAt page response current ->
  (if hasMoreAfter page response then currentPageOf page response else None)
  = Some current.
Proof.
  intros (Hc & last & Hl & Hlt). unfold hasMoreAfter.
  rewrite (currentAt_read _ _ _ Hc), (lastAt_read page _ _ Hl). simpl.
  replace (current <? last)%Z with true by (symmetry; apply Z.ltb_lt; lia).
  reflexivity.
Qed.

Lemma lastPage_missing (page : Z) (response : IDataObject) :
  pageField response "last_page" = None -> hasMoreAfter page response = false.
Proof.
  unfold pageField, hasMoreAfter, lastPageOf. intros ->. apply jsLt_irrefl.
Qed.

Lemma endsAt_stop (page : Z) (response : IDataObject) :
  endsAt page response ->
  (if hasMoreAfter page response then currentPageOf page response else None) = None.
Proof.
  intros [Ho | [Hl | (current & last & Hc & Hl & Hge)]].
  - rewrite lastPage_missing; [reflexivity|]. apply omitsPagination_fields, Ho.
  - rewrite lastPage_missing; [reflexivity | exact Hl].
  - unfold hasMoreAfter.
    rewrite (currentAt_read _ _ _ Hc), (lastAt_read page _ _ Hl). simpl.
    replace (current <? last)%Z with false by (symmetry; apply Z.ltb_ge; lia).
    reflexivity.
Qed.

(** C10, as the code has it.  In the exhaustive page fetch a missing
    [current_page] stands for the page that was asked for and a missing
    [last_page] for the current page.  So a response without pagination
    object or without [last_page] ends the loop with that request, and a
    response that lacks [current_page] only ends it exactly when the page
    asked for is not below [last_page]; otherwise the loop goes on with the
    page after the one asked for.  The fetch terminates whenever its own run
    comes to a failed request or to a response that calls for no further
    page: with fuel above the number of responses before that one, the loop
    returns after exactly one request more than those responses, each for
    the page after the current page of the response before it, with the
    entries of all responses in order, or with the error. *)
Theorem template_fetchAll_terminates (queryBase : IDataObject) (itemIndex : nat)
    (page : Z) (steps : list (IDataObject * Z)) (final : HttpResult)
    (entries : list Json) (st : State) (fuel : nat) :
  let numbers := page :: ((fun s => s.2 + 1)%Z <$> steps) in
  let reqs := templatePageRequest queryBase <$> numbers in
  let results := ((HttpOk <$> (fst <$> steps)) ++ [final])%list in
  let fetched := concat ((fun r => getResponseList r "templates") <$> (fst <$> steps)) in
  pagesRun page steps final ->
  serves (requests st) (zip reqs results) ->
  (length steps < fuel)%nat ->
  templateFetchAll fuel queryBase itemIndex page entries st
  = Some (match final with
          | HttpOk response =>
              Done (entries ++ fetched ++ getResponseList response "templates")%list
          | HttpFail message => Throw (NodeApiError message itemIndex)
          end,
          afterRequests st reqs)
  /\ length reqs = S (length steps).
Proof.
  intros numbers reqs results fetched Hrun Hserve Hfuel. split.
  - subst numbers reqs results fetched.
    revert page entries st fuel Hrun Hserve Hfuel.
    induction steps as [|[r c] steps IH]; intros page entries st fuel Hrun Hserve Hfuel;
      (destruct fuel as [|fuel]; [simpl in Hfuel; lia|]);
      rewrite templateFetchAll_turn;
      simpl in Hserve; destruct Hserve as [Hfirst Hrest]; cbv zeta; rewrite Hfirst.
    + destruct final as [response|message]; [|reflexivity].
      simpl in Hrun. rewrite (endsAt_stop _ _ Hrun). reflexivity.
    + destruct Hrun as [Hgo Hrun]. rewrite (continuesAt_next _ _ _ Hgo).
      rewrite (IH (c + 1)%Z); [| exact Hrun | exact Hrest | simpl in Hfuel; lia].
      rewrite afterRequests_app. simpl.
      destruct final; [rewrite <- !app_assoc|]; reflexivity.
  - subst reqs numbers. simpl. rewrite !length_fmap. reflexivity.
Qed.

(** ** Output of the list operations *)

(** The two fetch loops never touch [returnData]. *)
Lemma emailFetchAll_returnData (fuel : nat) (queryBase : IDataObject) (itemIndex : nat) :
  forall cursor entries st out st',
  emailFetchAll fuel queryBase itemIndex cursor entries st = Some (out, st') ->
  returnData st' = returnData st.
Proof.
  induction fuel as [|fuel IH]; intros cursor entries st out st' Hrun;
    [discriminate|].
  simpl in Hrun. unfold bind in Hrun. rewrite lettrApiRequest_run in Hrun.
  cbv zeta in Hrun.
  destruct (httpRequestWithAuthentication _ _ _) as [response|message].
  - destruct (truthyOpt _).
    + apply IH in Hrun. exact Hrun.
    + inversion Hrun. reflexivity.
  - inversion Hrun. reflexivity.
Qed.

Lemma templateFetchAll_returnData (fuel : nat) (queryBase : IDataObject)
    (itemIndex : nat) :
  forall page entries st out st',
  templateFetchAll fuel queryBase itemIndex page entries st = Some (out, st') ->
  returnData st' = returnData st.
Proof.
  induction fuel as [|fuel IH]; intros page entries st out st' Hrun;
    [discriminate|].
  rewrite templateFetchAll_turn in Hrun. cbv zeta in Hrun.
  destruct (httpRequestWithAuthentication _ _ _) as [response|message].
  - destruct (if hasMoreAfter page response then _ else _).
    + apply IH in Hrun. exact Hrun.
    + inversion Hrun. reflexivity.
  - inversion Hrun. reflexivity.
Qed.

Lemma entryRecords_json (entries : list Json) (itemIndex : nat) :
  ned_json <$> entryRecords entries itemIndex = entries
  /\ Forall (fun r => pairedItem r = itemIndex) (entryRecords entries itemIndex).
Proof.
  unfold entryRecords. split.
  - rewrite <- list_fmap_compose. apply list_fmap_id.
  - apply Forall_fmap, Forall_forall. intros; reflexivity.
Qed.

(** C3. After an exhaustive cursor fetch of emails that accumulated
    [entries], [simplify = false] adds exactly one output record, whose json
    is [{data: {emails: entries}}] with no other property (so no pagination
    metadata), and [simplify = true] adds exactly one record per entry, in
    the order of [entries]; all records are paired to the item. *)
Theorem email_getAll_exhaustive_output (fuel : nat) (p : NodeParameters)
    (itemIndex : nat) (entries : list Json) (st st1 : State) :
  p_returnAll p = true ->
  emailFetchAll fuel (emailQueryBase p) itemIndex (orUndefined (p_cursor p)) [] st
  = Some (Done entries, st1) ->
  let synthesized : IDataObject := {[ "data" := JObj {[ "emails" := JArr entries ]} ]} in
  emailGetAll fuel p itemIndex st
  = Some (Done tt,
          afterOutput st1
            (if p_simplify p then entryRecords entries itemIndex
             else [ {| ned_json := JObj synthesized; pairedItem := itemIndex |} ]))
  /\ returnData st1 = returnData st
  /\ ned_json <$> entryRecords entries itemIndex = entries
  /\ Forall (fun r => pairedItem r = itemIndex) (entryRecords entries itemIndex)
  /\ getResponseList synthesized "emails" = entries
  /\ getPagination synthesized = JObj ∅
  /\ dom synthesized = {[ "data" ]}
  /\ (forall key, key <> "emails" -> getProp (getResponseData synthesized) key = None).
Proof.
  intros Hall Hrun synthesized.
  split; [|split; [|split; [|split; [|split; [|split; [|split]]]]]].
  - unfold emailGetAll. rewrite Hall. simpl. unfold bind. rewrite Hrun.
    destruct (p_simplify p); simpl.
    + apply pushEntries_run.
    + reflexivity.
  - eapply emailFetchAll_returnData, Hrun.
  - apply entryRecords_json.
  - apply entryRecords_json.
  - reflexivity.
  - reflexivity.
  - subst synthesized. apply dom_singleton_L.
  - intros key Hkey. subst synthesized. unfold getResponseData, coalesce.
    rewrite lookup_singleton_eq. simpl. apply lookup_singleton_ne. congruence.
Qed.

(** ** Listings that the server does not paginate *)

Lemma slice0_take {A} (l : list A) (e : Z) :
  (0 <= e)%Z -> slice0 l e = take (Z.to_nat e) l.
Proof.
  intros He. unfold slice0.
  replace (e <? 0)%Z with false by (symmetry; apply Z.ltb_ge; lia).
  destruct (Z.le_gt_cases e (Z.of_nat (length l))) as [Hle|Hgt].
  - rewrite Z.min_l by lia. reflexivity.
  - rewrite Z.min_r by lia. rewrite Nat2Z.id.
    rewrite take_ge by lia. rewrite take_ge by lia. reflexivity.
Qed.

Lemma plainGetAll_run (endpoint listField : string) (p : NodeParameters)
    (itemIndex : nat) (st : State) (response : IDataObject) :
  (0 <= p_limit p)%Z ->
  httpRequestWithAuthentication (requests st) "lettrApi"
    (requestOptions GET endpoint ∅ ∅) = HttpOk response ->
  let list := getResponseList response listField in
  let kept := if p_returnAll p then list else take (Z.to_nat (p_limit p)) list in
  plainGetAll endpoint listField p itemIndex st
  = Some (Done tt,
          afterOutput (afterRequests st [requestOptions GET endpoint ∅ ∅])
            (if p_simplify p then entryRecords kept itemIndex
             else [ {| ned_json :=
                         JObj (<["data" := JObj (<[listField := JArr kept]>
                                                   (spread (getResponseData response)))]>
                                 response);
                       pairedItem := itemIndex |} ])).
Proof.
  intros Hlimit Hresp list kept.
  unfold plainGetAll, bind. rewrite lettrApiRequest_run. cbv zeta.
  rewrite Hresp, slice0_take by exact Hlimit.
  destruct (p_simplify p); simpl.
  - apply pushEntries_run.
  - reflexivity.
Qed.

(** C4. "getAll" on domains and on webhooks issues exactly one request,
    GET /domains or GET /webhooks, without body and without query, whatever
    [returnAll] and the limit are; with [returnAll = false] (and a limit
    that is not negative) the list of the response is then cut to its first
    [limit] entries, unchanged and in the order of the response: they are
    the output records ([simplify = true]) or the list field of the one
    envelope ([simplify = false]). *)
Theorem plain_getAll_truncates (p : NodeParameters) (itemIndex : nat) (st : State) :
  (0 <= p_limit p)%Z ->
  let limit := Z.to_nat (p_limit p) in
  let output (listField : string) (response : IDataObject) :=
    let list := getResponseList response listField in
    let kept := if p_returnAll p then list else take limit list in
    if p_simplify p then entryRecords kept itemIndex
    else [ {| ned_json :=
                JObj (<["data" := JObj (<[listField := JArr kept]>
                                          (spread (getResponseData response)))]>
                        response);
              pairedItem := itemIndex |} ] in
  (forall response,
     httpRequestWithAuthentication (requests st) "lettrApi"
       (requestOptions GET "/domains" ∅ ∅) = HttpOk response ->
     domainGetAll p itemIndex st
     = Some (Done tt, afterOutput (afterRequests st [requestOptions GET "/domains" ∅ ∅])
                        (output "domains" response)))
  /\ (forall response,
        httpRequestWithAuthentication (requests st) "lettrApi"
          (requestOptions GET "/webhooks" ∅ ∅) = HttpOk response ->
        webhookGetAll p itemIndex st
        = Some (Done tt, afterOutput (afterRequests st [requestOptions GET "/webhooks" ∅ ∅])
                           (output "webhooks" response)))
  /\ (forall endpoint,
        body (requestOptions GET endpoint ∅ ∅) = None
        /\ qs (requestOptions GET endpoint ∅ ∅) = None)
  /\ (forall (entries : list Json),
        (length (take limit entries) <= limit)%nat
        /\ (forall i, (i < limit)%nat -> take limit entries !! i = entries !! i)
        /\ (forall i, (limit <= i)%nat -> take limit entries !! i = None)).
Proof.
  intros Hlimit limit output.
  split; [|split; [|split]].
  - intros response Hresp. apply plainGetAll_run; assumption.
  - intros response Hresp. apply plainGetAll_run; assumption.
  - intros endpoint. split; reflexivity.
  - intros entries. split; [|split].
    + rewrite length_take. lia.
    + intros i Hi. apply lookup_take_lt, Hi.
    + intros i Hi. apply lookup_take_ge, Hi.
Qed.

(** ** Single-page fetch *)

Lemma lookup_assignIf_ne (c : bool) (key key' : string) (v : Json) (o : IDataObject) :
  key <> key' -> assignIf c key v o !! key' = o !! key'.
Proof.
  intros Hne. unfold assignIf. destruct c; [|reflexivity].
  apply lookup_insert_ne, Hne.
Qed.

Lemma lookup_assignIf_eq (c : bool) (key : string) (v : Json) (o : IDataObject) :
  assignIf c key v o !! key = if c then Some v else o !! key.
Proof. unfold assignIf. destruct c; [apply lookup_insert_eq | reflexivity]. Qed.

Lemma plainGetAll_bound (endpoint listField : string) (p : NodeParameters)
    (itemIndex : nat) (st st' : State) :
  p_returnAll p = false -> p_simplify p = true -> (0 <= p_limit p)%Z ->
  plainGetAll endpoint listField p itemIndex st = Some (Done tt, st') ->
  (length (returnData st') <= length (returnData st) + Z.to_nat (p_limit p))%nat.
Proof.
  intros Hall Hsimp Hlimit Hrun.
  destruct (httpRequestWithAuthentication (requests st) "lettrApi"
              (requestOptions GET endpoint ∅ ∅)) as [response|message] eqn:Hresp.
  - rewrite (plainGetAll_run _ _ _ _ _ response Hlimit Hresp) in Hrun.
    rewrite Hall, Hsimp in Hrun. inversion Hrun; subst st'. simpl.
    rewrite length_app. unfold entryRecords. rewrite length_fmap, length_take. lia.
  - unfold plainGetAll, bind in Hrun. rewrite lettrApiRequest_run in Hrun.
    cbv zeta in Hrun. rewrite Hresp in Hrun. discriminate.
Qed.

(** C9, as the code has it.  With [returnAll = false] and [simplify = true]:
    on emails and templates the limit travels to the server as [per_page]
    of the one request, and the output is one record per entry of the
    response's list, however many the server sent; on domains and webhooks
    the output never has more than [limit] records (for a limit that is not
    negative). *)
Theorem single_page_outputs (fuel : nat) (p : NodeParameters) (itemIndex : nat)
    (st : State) :
  p_returnAll p = false -> p_simplify p = true -> (0 <= p_limit p)%Z ->
  (forall response,
     httpRequestWithAuthentication (requests st) "lettrApi"
       (requestOptions GET "/emails" ∅ (emailPageQuery p)) = HttpOk response ->
     emailGetAll fuel p itemIndex st
     = Some (Done tt,
             afterOutput (afterRequests st [requestOptions GET "/emails" ∅ (emailPageQuery p)])
               (entryRecords (getResponseList response "emails") itemIndex)))
  /\ emailPageQuery p !! "per_page" = Some (JNum (p_limit p))
  /\ (forall response,
        httpRequestWithAuthentication (requests st) "lettrApi"
          (requestOptions GET "/templates" ∅ (templatePageQuery p)) = HttpOk response ->
        templateGetAll fuel p itemIndex st
        = Some (Done tt,
                afterOutput (afterRequests st [requestOptions GET "/templates" ∅ (templatePageQuery p)])
                  (entryRecords (getResponseList response "templates") itemIndex)))
  /\ templatePageQuery p !! "per_page" = Some (JNum (p_limit p))
  /\ (forall entries, length (entryRecords entries itemIndex) = length entries)
  /\ (forall st', domainGetAll p itemIndex st = Some (Done tt, st') ->
        (length (returnData st') <= length (returnData st) + Z.to_nat (p_limit p))%nat)
  /\ (forall st', webhookGetAll p itemIndex st = Some (Done tt, st') ->
        (length (returnData st') <= length (returnData st) + Z.to_nat (p_limit p))%nat).
Proof.
  intros Hall Hsimp Hlimit.
  split; [|split; [|split; [|split; [|split; [|split]]]]].
  - intros response Hresp. unfold emailGetAll. rewrite Hall, Hsimp. simpl.
    unfold bind. rewrite lettrApiRequest_run. cbv zeta. rewrite Hresp.
    apply pushEntries_run.
  - unfold emailPageQuery. rewrite lookup_assignIf_ne by discriminate.
    apply lookup_insert_eq.
  - intros response Hresp. unfold templateGetAll. rewrite Hall, Hsimp. simpl.
    unfold bind. rewrite lettrApiRequest_run. cbv zeta. rewrite Hresp.
    apply pushEntries_run.
  - unfold templatePageQuery. rewrite lookup_insert_ne by discriminate.
    apply lookup_insert_eq.
  - intros entries. unfold entryRecords. apply length_fmap.
  - intros st'. apply plainGetAll_bound; assumption.
  - intros st'. apply plainGetAll_bound; assumption.
Qed.

(** ** Sending *)

Lemma malformed_dec (field : option string) : malformed field \/ ~ malformed field.
Proof.
  unfold malformed. destruct (givenStr field); [|right; intros [? _]; discriminate].
  destruct (JSON_parse (strOf field)); [right; intros [_ ?]; discriminate | left; auto].
Qed.

Lemma assignJsonIf_ok (field : option string) (key fieldName : string)
    (itemIndex : nat) (o : IDataObject) (st : State) :
  ~ malformed field ->
  assignJsonIf field key fieldName itemIndex o st
  = Some (Done (assignOpt (jsonValue field) key o), st).
Proof.
  unfold malformed, assignJsonIf, jsonValue, parseOptionalJson, bind. intros Hok.
  destruct (givenStr field); [|reflexivity].
  destruct (JSON_parse (strOf field)); [reflexivity | tauto].
Qed.

Lemma assignJsonIf_bad (field : option string) (key fieldName : string)
    (itemIndex : nat) (o : IDataObject) (st : State) :
  malformed field ->
  assignJsonIf field key fieldName itemIndex o st
  = Some (Throw (NodeOperationError
                   (quoted fieldName +:+ " must be valid JSON when provided.")
                   itemIndex), st).
Proof.
  unfold malformed, assignJsonIf, parseOptionalJson, bind. intros [-> ->].
  reflexivity.
Qed.

Lemma sendBody_malformed (p : NodeParameters) (to : list string) (itemIndex : nat)
    (st : State) :
  Exists malformed (jsonInputs (p_additionalFields p)) ->
  exists fieldName,
    sendBody p to itemIndex st
    = Some (Throw (NodeOperationError
                     (quoted fieldName +:+ " must be valid JSON when provided.")
                     itemIndex), st).
Proof.
  intros Hbad. unfold sendBody. cbv zeta. unfold bind.
  destruct (malformed_dec (metadataJson (p_additionalFields p))) as [B1|G1];
    [rewrite assignJsonIf_bad by exact B1; eexists; reflexivity|].
  rewrite assignJsonIf_ok by exact G1.
  destruct (malformed_dec (substitutionDataJson (p_additionalFields p))) as [B2|G2];
    [rewrite assignJsonIf_bad by exact B2; eexists; reflexivity|].
  rewrite assignJsonIf_ok by exact G2.
  destruct (malformed_dec (optionsJson (p_additionalFields p))) as [B3|G3];
    [rewrite assignJsonIf_bad by exact B3; eexists; reflexivity|].
  rewrite assignJsonIf_ok by exact G3.
  destruct (malformed_dec (attachmentsJson (p_additionalFields p))) as [B4|G4];
    [rewrite assignJsonIf_bad by exact B4; eexists; reflexivity|].
  exfalso. unfold jsonInputs in Hbad.
  repeat (apply Exists_cons in Hbad as [Hbad|Hbad]; [tauto|]).
  inversion Hbad.
Qed.

(** The dispatch of [executeItem] for a "send" item. *)
Lemma executeItem_send (fuel : nat) (p : NodeParameters) (itemIndex : nat) (st : State) :
  p_resource p = "email" -> p_operation p = "send" ->
  executeItem fuel p itemIndex st = emailSend p itemIndex st.
Proof.
  intros Hr Ho. unfold executeItem. rewrite Hr, Ho. simpl. unfold bind, ret.
  destruct (emailSend p itemIndex st) as [[[[]|e] st']|]; reflexivity.
Qed.

Lemma emailSend_valid (p : NodeParameters) (itemIndex : nat) (st : State) :
  hasContent p = true -> splitRecipientList (p_to p) <> [] ->
  emailSend p itemIndex st
  = (body <- sendBody p (splitRecipientList (p_to p)) itemIndex ;;
     response <- lettrApiRequest POST "/emails" itemIndex body ∅ ;;
     push {| ned_json := JObj response; pairedItem := itemIndex |}) st.
Proof.
  unfold hasContent, emailSend. intros Hc Hto.
  destruct (truthyStr (p_html p)), (truthyStr (p_text p)),
    (truthyStr (p_templateSlug p)); try discriminate; simpl;
    destruct (splitRecipientList (p_to p)); try congruence; reflexivity.
Qed.

(** C5. For a "send" item each of the three validation failures makes
    [execute]'s item body throw a [NodeOperationError] that carries the
    index of the item, and leaves the state as it was: no HTTP request has
    been issued and no output record pushed.  The failures: none of HTML,
    Text and Template Slug given; no recipient left after parsing "To";
    a supplied free-text JSON input that [JSON.parse] rejects (the message
    names the input when content and recipients are in order). *)
Theorem send_validation_before_request (fuel : nat) (p : NodeParameters)
    (itemIndex : nat) (st : State) :
  p_resource p = "email" -> p_operation p = "send" ->
  (hasContent p = false ->
     executeItem fuel p itemIndex st
     = Some (Throw (NodeOperationError
                      "Provide at least one of: HTML, Text, or Template Slug."
                      itemIndex), st))
  /\ (hasContent p = true -> splitRecipientList (p_to p) = [] ->
        executeItem fuel p itemIndex st
        = Some (Throw (NodeOperationError
                         (quoted "To" +:+ " must contain at least one valid recipient.")
                         itemIndex), st))
  /\ (hasContent p = true -> splitRecipientList (p_to p) <> [] ->
        Exists malformed (jsonInputs (p_additionalFields p)) ->
        exists fieldName,
          executeItem fuel p itemIndex st
          = Some (Throw (NodeOperationError
                           (quoted fieldName +:+ " must be valid JSON when provided.")
                           itemIndex), st))
  /\ (hasContent p = false \/ splitRecipientList (p_to p) = []
      \/ Exists malformed (jsonInputs (p_additionalFields p)) ->
        exists message,
          executeItem fuel p itemIndex st
          = Some (Throw (NodeOperationError message itemIndex), st)).
Proof.
  intros Hr Ho. rewrite (executeItem_send fuel p itemIndex st Hr Ho).
  assert (Hnone : hasContent p = false ->
            emailSend p itemIndex st
            = Some (Throw (NodeOperationError
                             "Provide at least one of: HTML, Text, or Template Slug."
                             itemIndex), st)).
  { unfold hasContent, emailSend. intros Hc.
    destruct (truthyStr (p_html p)), (truthyStr (p_text p)),
      (truthyStr (p_templateSlug p)); try discriminate; reflexivity. }
  assert (Hto : hasContent p = true -> splitRecipientList (p_to p) = [] ->
            emailSend p itemIndex st
            = Some (Throw (NodeOperationError
                             (quoted "To" +:+ " must contain at least one valid recipient.")
                             itemIndex), st)).
  { unfold hasContent, emailSend. intros Hc Hto. rewrite Hto.
    destruct (truthyStr (p_html p)), (truthyStr (p_text p)),
      (truthyStr (p_templateSlug p)); try discriminate; reflexivity. }
  assert (Hjson : hasContent p = true -> splitRecipientList (p_to p) <> [] ->
            Exists malformed (jsonInputs (p_additionalFields p)) ->
            exists fieldName,
              emailSend p itemIndex st
              = Some (Throw (NodeOperationError
                               (quoted fieldName +:+ " must be valid JSON when provided.")
                               itemIndex), st)).
  { intros Hc Hrcp Hbad. rewrite emailSend_valid by assumption.
    destruct (sendBody_malformed p (splitRecipientList (p_to p)) itemIndex st Hbad)
      as [fieldName Hthrow].
    exists fieldName. unfold bind. rewrite Hthrow. reflexivity. }
  split; [exact Hnone|]. split; [exact Hto|]. split; [exact Hjson|].
  intros Hfail.
  destruct (hasContent p) eqn:Hc; [|eexists; apply Hnone; reflexivity].
  destruct (decide (splitRecipientList (p_to p) = [])) as [Hrcp|Hrcp];
    [eexists; apply Hto; [reflexivity | exact Hrcp]|].
  destruct Hfail as [Hf | [Hf | Hf]]; [discriminate | contradiction |].
  destruct (Hjson eq_refl Hrcp Hf) as [fieldName Hthrow]. eexists. exact Hthrow.
Qed.

Lemma lookup_assignOpt_ne (value : option Json) (key key' : string) (o : IDataObject) :
  key <> key' -> assignOpt value key o !! key' = o !! key'.
Proof.
  intros Hne. unfold assignOpt. destruct value; [|reflexivity].
  apply lookup_insert_ne, Hne.
Qed.

Lemma lookup_assignOpt_eq (value : option Json) (key : string) (o : IDataObject) :
  assignOpt value key o !! key = match value with Some v => Some v | None => o !! key end.
Proof. unfold assignOpt. destruct value; [apply lookup_insert_eq | reflexivity]. Qed.

(** Reads [o !! key] through a chain of conditional assignments. *)
Ltac read_through side :=
  repeat first
    [ rewrite lookup_assignOpt_ne by side
    | rewrite lookup_assignIf_ne by side
    | rewrite lookup_insert_ne by side
    | rewrite lookup_assignOpt_eq
    | rewrite lookup_assignIf_eq
    | rewrite lookup_insert_eq
    | rewrite lookup_empty ].

Ltac read_through_in side Hyp :=
  repeat first
    [ rewrite lookup_assignOpt_ne in Hyp by side
    | rewrite lookup_assignIf_ne in Hyp by side
    | rewrite lookup_insert_ne in Hyp by side
    | rewrite lookup_empty in Hyp ].

Lemma sendBody_fields (p : NodeParameters) (itemIndex : nat) (st : State) :
  Forall (fun field => ~ malformed field) (jsonInputs (p_additionalFields p)) ->
  exists body,
    sendBody p (splitRecipientList (p_to p)) itemIndex st = Some (Done body, st)
    /\ (forall key value, (key, value) ∈ sendBodyFields p -> body !! key = value)
    /\ (forall key, is_Some (body !! key) -> key ∈ (fst <$> sendBodyFields p)).
Proof.
  intros Hok. unfold jsonInputs in Hok.
  apply Forall_cons in Hok as [G1 Hok]. apply Forall_cons in Hok as [G2 Hok].
  apply Forall_cons in Hok as [G3 Hok]. apply Forall_cons in Hok as [G4 _].
  eexists. split; [|split].
  - unfold sendBody. cbv zeta. unfold bind.
    rewrite assignJsonIf_ok by exact G1. rewrite assignJsonIf_ok by exact G2.
    rewrite assignJsonIf_ok by exact G3. rewrite assignJsonIf_ok by exact G4.
    reflexivity.
  - intros key value Hin. unfold sendBodyFields in Hin. cbv zeta in Hin.
    repeat (apply elem_of_cons in Hin as [Hin|Hin];
            [injection Hin as -> ->; read_through discriminate;
             unfold recipientArray;
             repeat match goal with |- context [if ?c then _ else _] => destruct c end;
             try reflexivity;
             repeat match goal with |- context [match ?v with Some _ => _ | None => _ end] =>
                      destruct v end; reflexivity |]).
    inversion Hin.
  - intros key Hsome. unfold sendBodyFields. cbv zeta. simpl.
    destruct (decide (key ∈ ["from"; "to"; "subject"; "html"; "text"; "template_slug";
                             "from_name"; "reply_to"; "reply_to_name"; "amp_html";
                             "project_id"; "template_version"; "campaign_id"; "cc";
                             "bcc"; "metadata"; "substitution_data"; "options";
                             "attachments"])) as [Hin|Hout]; [exact Hin|].
    exfalso. rewrite !not_elem_of_cons in Hout.
    read_through_in ltac:(intros <-; tauto) Hsome.
    destruct Hsome as [v Hv]. discriminate.
Qed.

(** C7. For a valid "send" input (some content, at least one parsed
    recipient, every supplied JSON input well-formed) the one request is
    POST /emails with a body that holds [from], [to], [subject] and, of the
    sixteen optional wire fields, exactly those whose input is supplied
    (a non-empty string, a non-zero number), each with the supplied value:
    [cc] and [bcc] as arrays split by [splitRecipientList] like [to], the
    JSON inputs parsed.  The body has no other property. *)
Theorem send_body_fields (p : NodeParameters) (itemIndex : nat) (st : State) :
  hasContent p = true ->
  splitRecipientList (p_to p) <> [] ->
  Forall (fun field => ~ malformed field) (jsonInputs (p_additionalFields p)) ->
  exists payload : IDataObject,
    let options := requestOptions POST "/emails" payload ∅ in
    (forall key value, (key, value) ∈ sendBodyFields p -> payload !! key = value)
    /\ (forall key, is_Some (payload !! key) -> key ∈ (fst <$> sendBodyFields p))
    /\ body options = Some payload
    /\ qs options = None
    /\ emailSend p itemIndex st
       = match httpRequestWithAuthentication (requests st) "lettrApi" options with
         | HttpOk response =>
             Some (Done tt,
                   afterOutput (afterRequests st [options])
                     [ {| ned_json := JObj response; pairedItem := itemIndex |} ])
         | HttpFail message =>
             Some (Throw (NodeApiError message itemIndex), afterRequests st [options])
         end.
Proof.
  intros Hc Hto Hok.
  destruct (sendBody_fields p itemIndex st Hok) as (payload & Hrun & Hin & Hout).
  exists payload. cbv zeta. split; [exact Hin|]. split; [exact Hout|].
  split; [|split].
  - simpl. unfold nonEmpty.
    destruct (Nat.eqb_spec (size payload) 0) as [E|E]; [|reflexivity].
    apply map_size_empty_iff in E.
    specialize (Hin "from" (Some (JStr (p_from p)))
                  ltac:(unfold sendBodyFields; cbv zeta; apply elem_of_cons; left; reflexivity)).
    rewrite E, lookup_empty in Hin. discriminate.
  - reflexivity.
  - rewrite emailSend_valid by assumption. unfold bind at 1. rewrite Hrun.
    unfold bind. rewrite lettrApiRequest_run. cbv zeta.
    destruct (httpRequestWithAuthentication _ _ _); reflexivity.
Qed.

(** ** The item loop *)

Lemma quiet_throw {A} (e : NodeError) : quiet (@throw A e).
Proof. intros st out st' Hrun. inversion Hrun. reflexivity. Qed.

Lemma quiet_bind {A B} (m : M A) (k : A -> M B) :
  quiet m -> (forall a, quiet (k a)) -> quiet (bind m k).
Proof.
  intros Hm Hk st out st' Hrun. unfold bind in Hrun.
  destruct (m st) as [[[a|e] st1]|] eqn:Hfirst; [| |discriminate].
  - apply Hk in Hrun. apply Hm in Hfirst. congruence.
  - inversion Hrun; subst. eapply Hm, Hfirst.
Qed.

Lemma quiet_lettrApiRequest (method : IHttpRequestMethods) (endpoint : string)
    (itemIndex : nat) (body qs : IDataObject) :
  quiet (lettrApiRequest method endpoint itemIndex body qs).
Proof.
  intros st out st' Hrun. rewrite lettrApiRequest_run in Hrun. cbv zeta in Hrun.
  destruct (httpRequestWithAuthentication _ _ _); inversion Hrun; reflexivity.
Qed.

Lemma quiet_assignJsonIf (field : option string) (key fieldName : string)
    (itemIndex : nat) (o : IDataObject) :
  quiet (assignJsonIf field key fieldName itemIndex o).
Proof.
  intros st out st' Hrun.
  destruct (malformed_dec field) as [B|G].
  - rewrite assignJsonIf_bad in Hrun by exact B. inversion Hrun. reflexivity.
  - rewrite assignJsonIf_ok in Hrun by exact G. inversion Hrun. reflexivity.
Qed.

Lemma quiet_sendBody (p : NodeParameters) (to : list string) (itemIndex : nat) :
  quiet (sendBody p to itemIndex).
Proof.
  unfold sendBody. cbv zeta.
  repeat (apply quiet_bind; [apply quiet_assignJsonIf | intros ?]).
  apply quiet_assignJsonIf.
Qed.
















End Properties.

(** * The statements at concrete inputs *)

Lemma splitRecipientList_spec_witness :
  split "a@x.com" = ["a@x.com"]
  /\ split ("a" +:+ String ";"%char "b,c") = "a" :: split "b,c"
  /\ (exists l r, "  a@x.com " = l +:+ trim "  a@x.com " +:+ r
        /\ allChars isWhiteSpace l = true /\ allChars isWhiteSpace r = true
        /\ startsWhite (trim "  a@x.com ") = false
        /\ endsWhite (trim "  a@x.com ") = false).
Proof.
  destruct splitRecipientList_spec as (_ & Hplain & Hat & _ & Htrim & _).
  split; [|split].
  - apply Hplain. reflexivity.
  - apply Hat; reflexivity.
  - apply Htrim.
Defined.

Lemma email_fetchAll_cursor_witness :
  @emailFetchAll cursorHost 3 ∅ 0 None [] initialState
  = Some (Done [entryOf 1; entryOf 2; entryOf 3; entryOf 4; entryOf 5],
          {| requests := [ emailPageRequest ∅ None;
                           emailPageRequest ∅ (Some (JStr "c1"));
                           emailPageRequest ∅ (Some (JStr "c2")) ];
             returnData := [] |}).
Proof.
  apply (email_fetchAll_cursor (host := cursorHost) ∅ 0 EmptyString
           [(cursorPage1, "c1"); (cursorPage2, "c2")] cursorPage3 [] initialState 3).
  - repeat constructor; discriminate.
  - left. reflexivity.
  - simpl. repeat split.
  - simpl. lia.
Defined.

Lemma template_fetchAll_pages_witness :
  @templateFetchAll toyRuntime pageHost 3 ∅ 0 1 [] initialState
  = Some (Done [entryOf 1; entryOf 2; entryOf 3],
          {| requests := [ templatePageRequest ∅ 1; templatePageRequest ∅ 2;
                           templatePageRequest ∅ 3 ];
             returnData := [] |}).
Proof.
  apply (template_fetchAll_pages (runtime := toyRuntime) (host := pageHost) ∅ 0 1
           [(templatePage 1, (1, 3)%Z); (templatePage 2, (2, 3)%Z)]
           (templatePage 3) 3 3 [] initialState 3).
  - repeat constructor.
  - split; reflexivity.
  - lia.
  - simpl. repeat split.
  - simpl. lia.
Defined.

Lemma email_getAll_exhaustive_output_witness :
  @emailGetAll cursorHost 3 (listParams "email" true 50 false) 0 initialState
  = Some (Done tt,
          {| requests := [ emailPageRequest ∅ None;
                           emailPageRequest ∅ (Some (JStr "c1"));
                           emailPageRequest ∅ (Some (JStr "c2")) ];
             returnData :=
               [ {| ned_json :=
                      JObj {[ "data" :=
                                JObj {[ "emails" :=
                                          JArr [entryOf 1; entryOf 2; entryOf 3;
                                                entryOf 4; entryOf 5] ]} ]};
                    pairedItem := 0 |} ] |})
  /\ @emailGetAll cursorHost 3 (listParams "email" true 50 true) 0 initialState
     = Some (Done tt,
             {| requests := [ emailPageRequest ∅ None;
                              emailPageRequest ∅ (Some (JStr "c1"));
                              emailPageRequest ∅ (Some (JStr "c2")) ];
                returnData :=
                  entryRecords [entryOf 1; entryOf 2; entryOf 3; entryOf 4; entryOf 5] 0 |}).
Proof.
  split.
  - apply (email_getAll_exhaustive_output (host := cursorHost) 3
             (listParams "email" true 50 false) 0
             [entryOf 1; entryOf 2; entryOf 3; entryOf 4; entryOf 5] initialState
             {| requests := [ emailPageRequest ∅ None;
                              emailPageRequest ∅ (Some (JStr "c1"));
                              emailPageRequest ∅ (Some (JStr "c2")) ];
                returnData := [] |}); reflexivity.
  - apply (email_getAll_exhaustive_output (host := cursorHost) 3
             (listParams "email" true 50 true) 0
             [entryOf 1; entryOf 2; entryOf 3; entryOf 4; entryOf 5] initialState
             {| requests := [ emailPageRequest ∅ None;
                              emailPageRequest ∅ (Some (JStr "c1"));
                              emailPageRequest ∅ (Some (JStr "c2")) ];
                returnData := [] |}); reflexivity.
Defined.

Lemma plain_getAll_truncates_witness :
  @domainGetAll (listingHost "domains") (listParams "domain" false 2 true) 0 initialState
  = Some (Done tt,
          {| requests := [requestOptions GET "/domains" ∅ ∅];
             returnData := entryRecords [entryOf 1; entryOf 2] 0 |})
  /\ @webhookGetAll (listingHost "webhooks") (listParams "webhook" false 2 false) 0
       initialState
     = Some (Done tt,
             {| requests := [requestOptions GET "/webhooks" ∅ ∅];
                returnData :=
                  [ {| ned_json :=
                         JObj {[ "data" :=
                                   JObj {[ "webhooks" := JArr [entryOf 1; entryOf 2] ]} ]};
                       pairedItem := 0 |} ] |}).
Proof.
  split.
  - pose proof (plain_getAll_truncates (host := listingHost "domains")
                  (listParams "domain" false 2 true) 0 initialState
                  ltac:(simpl; lia)) as Hthm.
    cbv zeta in Hthm. destruct Hthm as (Hdomain & _).
    exact (Hdomain (fiveEntries "domains") eq_refl).
  - pose proof (plain_getAll_truncates (host := listingHost "webhooks")
                  (listParams "webhook" false 2 false) 0 initialState
                  ltac:(simpl; lia)) as Hthm.
    cbv zeta in Hthm. destruct Hthm as (_ & Hwebhook & _).
    exact (Hwebhook (fiveEntries "webhooks") eq_refl).
Defined.

Lemma send_validation_before_request_witness :
  @executeItem toyRuntime acceptingHost 0
    (sendParams "a@x.com" "b@x.com" "Hi" EmptyString emptyFields) 4 initialState
  = Some (Throw (NodeOperationError
                   "Provide at least one of: HTML, Text, or Template Slug." 4),
          initialState)
  /\ @executeItem toyRuntime acceptingHost 0
       (sendParams "a@x.com" " , ; " "Hi" "<p>Hi</p>" emptyFields) 4 initialState
     = Some (Throw (NodeOperationError
                      (quoted "To" +:+ " must contain at least one valid recipient.") 4),
             initialState)
  /\ exists fieldName,
       @executeItem toyRuntime acceptingHost 0
         (sendParams "a@x.com" "b@x.com" "Hi" "<p>Hi</p>" brokenFields) 4 initialState
       = Some (Throw (NodeOperationError
                        (quoted fieldName +:+ " must be valid JSON when provided.")
                        4),
               initialState).
Proof.
  split; [|split].
  - apply (send_validation_before_request (runtime := toyRuntime)
             (host := acceptingHost) 0
             (sendParams "a@x.com" "b@x.com" "Hi" EmptyString emptyFields) 4 initialState);
      reflexivity.
  - apply (send_validation_before_request (runtime := toyRuntime)
             (host := acceptingHost) 0
             (sendParams "a@x.com" " , ; " "Hi" "<p>Hi</p>" emptyFields) 4
             initialState); reflexivity.
  - apply (send_validation_before_request (runtime := toyRuntime)
             (host := acceptingHost) 0
             (sendParams "a@x.com" "b@x.com" "Hi" "<p>Hi</p>" brokenFields) 4
             initialState); try reflexivity.
    + discriminate.
    + unfold jsonInputs. simpl. right. right. left. split; reflexivity.
Defined.


Lemma send_body_fields_witness :
  let p := sendParams "a@x.com" "b@x.com, c@x.com" "Hi" "<p>Hi</p>" someFields in
  exists payload : IDataObject,
    payload !! "to" = Some (JArr [JStr "b@x.com"; JStr "c@x.com"])
    /\ payload !! "cc" = Some (JArr [JStr "d@x.com"; JStr "e@x.com"])
    /\ payload !! "html" = Some (JStr "<p>Hi</p>")
    /\ payload !! "project_id" = Some (JNum 7)
    /\ payload !! "metadata" = Some (JObj ∅)
    /\ payload !! "text" = None
    /\ payload !! "from_name" = None
    /\ payload !! "campaign_id" = None
    /\ payload !! "bcc" = None
    /\ @emailSend toyRuntime acceptingHost p 0 initialState
       = Some (Done tt,
               {| requests := [requestOptions POST "/emails" payload ∅];
                  returnData := [ {| ned_json := JObj {[ "request_id" := JStr "r1" ]};
                                     pairedItem := 0 |} ] |}).
Proof.
  intros p.
  destruct (send_body_fields (runtime := toyRuntime) (host := acceptingHost)
              p 0 initialState)
    as (payload & Hin & _ & _ & _ & Hrun).
  - reflexivity.
  - discriminate.
  - unfold jsonInputs. simpl. repeat constructor; intros [? ?]; discriminate.
  - exists payload.
    repeat (split; [apply Hin; unfold sendBodyFields; cbv zeta;
                    apply list_elem_of_In; simpl;
                    repeat first [left; reflexivity | right]|]).
    exact Hrun.
Defined.

Lemma single_page_outputs_witness :
  @emailGetAll generousHost 0 (listParams "email" false 2 true) 0 initialState
  = Some (Done tt,
          {| requests :=
               [requestOptions GET "/emails" ∅ {[ "per_page" := JNum 2 ]}];
             returnData := entryRecords [entryOf 1; entryOf 2; entryOf 3] 0 |})
  /\ forall st',
       @domainGetAll (listingHost "domains") (listParams "domain" false 2 true) 0
         initialState = Some (Done tt, st') ->
       (length (returnData st') <= 2)%nat.
Proof.
  pose proof (single_page_outputs (runtime := toyRuntime) (host := generousHost) 0
                (listParams "email" false 2 true) 0 initialState
                eq_refl eq_refl ltac:(simpl; lia)) as (Hemail & _).
  pose proof (single_page_outputs (runtime := toyRuntime)
                (host := listingHost "domains") 0
                (listParams "domain" false 2 true) 0 initialState
                eq_refl eq_refl ltac:(simpl; lia)) as (_ & _ & _ & _ & _ & Hdomain & _).
  split.
  - exact (Hemail threeEmails eq_refl).
  - exact Hdomain.
Defined.

(** C9 as stated fails: asked for at most two emails, a server that sends
    three gets all three into the output. *)
Lemma single_page_limit_exceeded :
  exists st',
    @emailGetAll generousHost 0 (listParams "email" false 2 true) 0 initialState
    = Some (Done tt, st')
    /\ ~ (Z.of_nat (length (returnData st'))
          <= p_limit (listParams "email" false 2 true))%Z.
Proof.
  exists {| requests := [requestOptions GET "/emails" ∅ {[ "per_page" := JNum 2 ]}];
            returnData := entryRecords [entryOf 1; entryOf 2; entryOf 3] 0 |}.
  split; [reflexivity|]. simpl. lia.
Qed.

(** C10 as stated fails for a response that lacks [current_page] only:
    asked for page 1, the server answers with [last_page: 3] and no
    [current_page]; the loop does not end with that request but goes on to
    pages 2 and 3. *)
Lemma template_fetchAll_lacks_current_goes_on :
  nullish (getProp (getPagination lastOnlyPage) "current_page") = None
  /\ httpRequestWithAuthentication (IExecuteFunctions := lastOnlyHost)
       [] "lettrApi" (templatePageRequest ∅ 1) = HttpOk lastOnlyPage
  /\ @templateFetchAll toyRuntime lastOnlyHost 1 ∅ 0 1 [] initialState = None
  /\ @templateFetchAll toyRuntime lastOnlyHost 3 ∅ 0 1 [] initialState
     = Some (Done [entryOf 1; entryOf 1; entryOf 1],
             {| requests := [ templatePageRequest ∅ 1; templatePageRequest ∅ 2;
                              templatePageRequest ∅ 3 ];
                returnData := [] |}).
Proof. repeat split. Qed.

Lemma template_fetchAll_terminates_witness :
  @templateFetchAll toyRuntime pageKeyedHost 3 ∅ 0 1 [] initialState
  = Some (Done [entryOf 1; entryOf 2; entryOf 3],
          {| requests := [ templatePageRequest ∅ 1; templatePageRequest ∅ 2;
                           templatePageRequest ∅ 3 ];
             returnData := [] |})
  /\ @templateFetchAll toyRuntime lastOnlyHost 3 ∅ 0 2 [] initialState
     = Some (Done [entryOf 1; entryOf 1],
             {| requests := [templatePageRequest ∅ 2; templatePageRequest ∅ 3];
                returnData := [] |})
  /\ @templateFetchAll toyRuntime (downHost false) 1 ∅ 0 1 [] initialState
     = Some (Throw (NodeApiError "Service Unavailable" 0),
             {| requests := [templatePageRequest ∅ 1]; returnData := [] |}).
Proof.
  split; [|split].
  - apply (template_fetchAll_terminates (runtime := toyRuntime) (host := pageKeyedHost)
             ∅ 0 1 [(templatePage 1, 1%Z); (templatePage 2, 2%Z)]
             (HttpOk (templatePage 3)) [] initialState 3).
    + simpl. split; [|split].
      * split; [reflexivity|]. exists 3%Z. split; [|lia]. eexists. split; reflexivity.
      * split; [reflexivity|]. exists 3%Z. split; [|lia]. eexists. split; reflexivity.
      * right. right. exists 3%Z, 3%Z. split; [reflexivity|].
        split; [|lia]. eexists. split; reflexivity.
    + simpl. repeat split.
    + simpl. lia.
  - apply (template_fetchAll_terminates (runtime := toyRuntime) (host := lastOnlyHost)
             ∅ 0 2 [(lastOnlyPage, 2%Z)] (HttpOk lastOnlyPage) [] initialState 3).
    + simpl. split.
      * split; [reflexivity|]. exists 3%Z. split; [|lia]. eexists. split; reflexivity.
      * right. right. exists 3%Z, 3%Z. split; [reflexivity|].
        split; [|lia]. eexists. split; reflexivity.
    + simpl. repeat split.
    + simpl. lia.
  - apply (template_fetchAll_terminates (runtime := toyRuntime) (host := downHost false)
             ∅ 0 1 [] (HttpFail "Service Unavailable") [] initialState 1).
    + exact I.
    + simpl. repeat split.
    + simpl. lia.
Defined.

(** * Further properties of the node *)

(** ** Recipient lists: what comes out *)

Lemma split_pieces (s : string) :
  Forall (fun piece => allChars notSeparator piece = true) (split s).
Proof.
  induction s as [|c rest IH]; simpl.
  - repeat constructor.
  - destruct (isSeparator c) eqn:Hc.
    + constructor; [reflexivity | exact IH].
    + destruct (split rest) as [|piece pieces].
      * repeat constructor. simpl. unfold notSeparator. rewrite Hc. reflexivity.
      * apply Forall_cons in IH as [Hp Hps]. constructor; [|exact Hps].
        simpl. unfold notSeparator at 1. rewrite Hc, Hp. reflexivity.
Qed.

Lemma trimStart_allChars (P : ascii -> bool) (s : string) :
  allChars P s = true -> allChars P (trimStart s) = true.
Proof.
  induction s as [|c rest IH]; simpl; [auto|].
  intros [Hc Hrest]%andb_true_iff.
  destruct (isWhiteSpace c); [auto|]. simpl. rewrite Hc, Hrest. reflexivity.
Qed.

Lemma trimEnd_allChars (P : ascii -> bool) (s : string) :
  allChars P s = true -> allChars P (trimEnd s) = true.
Proof.
  induction s as [|c rest IH]; simpl; [auto|].
  intros [Hc Hrest]%andb_true_iff. specialize (IH Hrest).
  destruct (trimEnd rest) as [|d kept].
  - destruct (isWhiteSpace c); [reflexivity|]. simpl. rewrite Hc. reflexivity.
  - simpl in *. rewrite Hc, IH. reflexivity.
Qed.

Lemma trimStart_fixed (s : string) : startsWhite s = false -> trimStart s = s.
Proof. destruct s as [|c rest]; simpl; [reflexivity|]. intros ->. reflexivity. Qed.

Lemma trimEnd_fixed (s : string) : endsWhite s = false -> trimEnd s = s.
Proof.
  induction s as [|c rest IH]; simpl; [reflexivity|].
  destruct rest as [|d rest'].
  - simpl. intros ->. reflexivity.
  - intros He. rewrite (IH He). reflexivity.
Qed.

Lemma cleanEntry_parts (e : string) :
  cleanEntry e = true <->
  e <> EmptyString /\ startsWhite e = false /\ endsWhite e = false
  /\ allChars notSeparator e = true.
Proof.
  unfold cleanEntry. rewrite !andb_true_iff, !negb_true_iff.
  destruct e; simpl; intuition congruence.
Qed.

(** X1. Every entry that [splitRecipientList] returns is clean: it is not
    empty, has no white space at either end and contains no [,], [;] or
    line feed. *)
Theorem splitRecipientList_clean (value : string) :
  Forall (fun entry => cleanEntry entry = true) (splitRecipientList value).
Proof.
  apply Forall_forall. intros entry Hin. unfold splitRecipientList in Hin.
  apply list_elem_of_filter in Hin as [Hlen Hin].
  apply list_elem_of_fmap in Hin as (piece & -> & Hpiece).
  apply cleanEntry_parts.
  destruct (trim_spec piece) as (l & r & _ & _ & _ & Hs & He).
  repeat split; try assumption.
  - apply length_positive, Hlen.
  - unfold trim. apply trimEnd_allChars, trimStart_allChars.
    pose proof (split_pieces value) as Hall.
    rewrite Forall_forall in Hall. apply Hall, Hpiece.
Qed.

Lemma split_joinWith (sep : ascii) (l : list string) :
  isSeparator sep = true -> l <> [] ->
  Forall (fun entry => allChars notSeparator entry = true) l ->
  split (joinWith sep l) = l.
Proof.
  intros Hsep Hne Hall. induction Hall as [|e rest He Hrest IH]; [congruence|].
  destruct rest as [|e' rest'].
  - simpl. apply split_plain, He.
  - change (joinWith sep (e :: e' :: rest'))
      with (e +:+ String sep (joinWith sep (e' :: rest'))).
    rewrite split_at by assumption. rewrite IH by congruence. reflexivity.
Qed.

(** X2. Writing clean entries with one separator between them and handing
    the text to [splitRecipientList] gives the entries back, in order. *)
Theorem splitRecipientList_joinWith (sep : ascii) (l : list string) :
  isSeparator sep = true ->
  Forall (fun entry => cleanEntry entry = true) l ->
  splitRecipientList (joinWith sep l) = l.
Proof.
  intros Hsep Hclean. destruct l as [|e rest]; [reflexivity|].
  unfold splitRecipientList. rewrite split_joinWith; [|exact Hsep|congruence|].
  - induction Hclean as [|x xs Hx Hxs IH]; [reflexivity|].
    apply cleanEntry_parts in Hx as (Hne & Hs & He & _).
    rewrite fmap_cons, filter_cons.
    assert (Htrim : trim x = x).
    { unfold trim. rewrite trimStart_fixed by exact Hs. apply trimEnd_fixed, He. }
    rewrite Htrim.
    destruct (decide (0 < String.length x)%nat) as [_|Hlen].
    + f_equal. exact IH.
    + exfalso. apply Hlen, length_positive, Hne.
  - eapply Forall_impl; [exact Hclean|]. intros x Hx.
    apply cleanEntry_parts in Hx. tauto.
Qed.

Section Further.

Context {runtime : JsRuntime} {host : IExecuteFunctions}.

(** ** The request helper and the response accessors *)

Lemma nonEmpty_spec (o : IDataObject) :
  (nonEmpty o = None <-> o = ∅) /\ (o <> ∅ -> nonEmpty o = Some o).
Proof.
  unfold nonEmpty. destruct (Nat.eqb_spec (size o) 0) as [E|E].
  - apply map_size_empty_iff in E. split; [tauto | congruence].
  - split; [|reflexivity]. split; [discriminate|].
    intros ->. rewrite map_size_empty in E. congruence.
Qed.

(** X3. [lettrApiRequest] always hands exactly one request to the host:
    JSON, on the fixed base URL, with the method and endpoint given, and
    with [body] and [qs] left out when they are empty objects and sent
    unchanged otherwise.  It returns the host's response, or throws a
    [NodeApiError] with the host's message and the item's index; it never
    touches [returnData]. *)
Theorem lettrApiRequest_contract (method0 : IHttpRequestMethods)
    (endpoint : string) (itemIndex : nat) (payload query : IDataObject)
    (st : State) :
  exists options outcome,
    lettrApiRequest method0 endpoint itemIndex payload query st
    = Some (outcome, afterRequests st [options])
    /\ method options = method0 /\ url options = endpoint
    /\ baseURL options = "https://app.lettr.com/api" /\ json options = true
    /\ (body options = None <-> payload = ∅)
    /\ (payload <> ∅ -> body options = Some payload)
    /\ (qs options = None <-> query = ∅)
    /\ (query <> ∅ -> qs options = Some query)
    /\ match httpRequestWithAuthentication (requests st) "lettrApi" options with
       | HttpOk response => outcome = Done response
       | HttpFail message => outcome = Throw (NodeApiError message itemIndex)
       end.
Proof.
  exists (requestOptions method0 endpoint payload query).
  destruct (httpRequestWithAuthentication (requests st) "lettrApi"
              (requestOptions method0 endpoint payload query)) eqn:Hhost;
    eexists; (split; [rewrite lettrApiRequest_run; cbv zeta; rewrite Hhost; reflexivity|]);
    simpl; repeat split; try apply nonEmpty_spec; try tauto;
    try (intros E; apply nonEmpty_spec in E; exact E);
    try (intros ->; apply nonEmpty_spec; reflexivity).
Qed.

(** X4. The accessors never fail.  Without a [data] property (or with
    [data: null]) the list is empty and the pagination is the empty object;
    a non-empty list comes out exactly when [data] is an object whose
    property of that name is that array. *)
Theorem response_accessors (response : IDataObject) (key : string) :
  (nullish (response !! "data") = None ->
     getResponseList response key = [] /\ getPagination response = JObj ∅)
  /\ (forall l, l <> [] ->
        (getResponseList response key = l
         <-> exists data, response !! "data" = Some (JObj data)
                          /\ data !! key = Some (JArr l)))
  /\ (forall data, response !! "data" = Some (JObj data) ->
        getResponseList response key
        = match data !! key with Some (JArr l) => l | _ => [] end
        /\ getPagination response
           = match data !! "pagination" with
             | Some JNull | None => JObj ∅
             | Some pagination => pagination
             end).
Proof.
  unfold getResponseList, getPagination, getResponseData, coalesce.
  split; [|split].
  - intros ->. split; reflexivity.
  - intros l Hl. split.
    + intros Hlist.
      destruct (response !! "data") as [[| | | | |data]|]; simpl in Hlist;
        rewrite ?lookup_empty in Hlist; try congruence.
      exists data. split; [reflexivity|].
      destruct (data !! key) as [[| | | |l'|]|]; congruence.
    + intros (data & -> & Hkey). simpl. rewrite Hkey. reflexivity.
  - intros data ->. simpl. split; [reflexivity|].
    destruct (data !! "pagination") as [[]|]; reflexivity.
Qed.

(** ** The dispatch on resource and operation *)

(** The six blocks of [execute] exclude each other: the dispatch runs the
    one block that matches, or nothing. *)
Lemma dispatch_cases (send get getAll domain template webhook : M unit)
    (resource operation : string) :
  let dispatch :=
    (when (String.eqb resource "email")
       (when (String.eqb operation "send") send ;;
        when (String.eqb operation "get") get ;;
        when (String.eqb operation "getAll") getAll) ;;
     when (String.eqb resource "domain" && String.eqb operation "getAll") domain ;;
     when (String.eqb resource "template" && String.eqb operation "getAll") template ;;
     when (String.eqb resource "webhook" && String.eqb operation "getAll") webhook) in
  (resource = "email" /\ operation = "send" /\ forall st, dispatch st = send st)
  \/ (resource = "email" /\ operation = "get" /\ forall st, dispatch st = get st)
  \/ (resource = "email" /\ operation = "getAll" /\ forall st, dispatch st = getAll st)
  \/ (resource = "domain" /\ operation = "getAll" /\ forall st, dispatch st = domain st)
  \/ (resource = "template" /\ operation = "getAll"
      /\ forall st, dispatch st = template st)
  \/ (resource = "webhook" /\ operation = "getAll"
      /\ forall st, dispatch st = webhook st)
  \/ (supported resource operation = false
      /\ forall st, dispatch st = Some (Done tt, st)).
Proof.
  cbv zeta. unfold supported.
  repeat match goal with
         | |- context [String.eqb ?a ?b] =>
             destruct (String.eqb_spec a b); try discriminate; subst
         end;
    simpl; unfold bind, ret;
    repeat first
      [ solve [ repeat split; try reflexivity; intros st;
                match goal with
                | |- _ = ?m st => destruct (m st) as [[[[]|?] ?]|]; reflexivity
                | |- _ => reflexivity
                end ]
      | left; solve [ repeat split; try reflexivity; intros st;
                      match goal with
                      | |- _ = ?m st => destruct (m st) as [[[[]|?] ?]|]; reflexivity
                      end ]
      | right ].
Qed.

Lemma executeItem_cases (fuel : nat) (p : NodeParameters) (itemIndex : nat) :
  (p_resource p = "email" /\ p_operation p = "send"
   /\ forall st, executeItem fuel p itemIndex st = emailSend p itemIndex st)
  \/ (p_resource p = "email" /\ p_operation p = "get"
      /\ forall st, executeItem fuel p itemIndex st = emailGet p itemIndex st)
  \/ (p_resource p = "email" /\ p_operation p = "getAll"
      /\ forall st, executeItem fuel p itemIndex st = emailGetAll fuel p itemIndex st)
  \/ (p_resource p = "domain" /\ p_operation p = "getAll"
      /\ forall st, executeItem fuel p itemIndex st = domainGetAll p itemIndex st)
  \/ (p_resource p = "template" /\ p_operation p = "getAll"
      /\ forall st, executeItem fuel p itemIndex st = templateGetAll fuel p itemIndex st)
  \/ (p_resource p = "webhook" /\ p_operation p = "getAll"
      /\ forall st, executeItem fuel p itemIndex st = webhookGetAll p itemIndex st)
  \/ (supported (p_resource p) (p_operation p) = false
      /\ forall st, executeItem fuel p itemIndex st = Some (Done tt, st)).
Proof.
  exact (dispatch_cases (emailSend p itemIndex) (emailGet p itemIndex)
           (emailGetAll fuel p itemIndex) (domainGetAll p itemIndex)
           (templateGetAll fuel p itemIndex) (webhookGetAll p itemIndex)
           (p_resource p) (p_operation p)).
Qed.

(** X5. An item whose resource and operation match none of the six blocks
    is passed over: no request, no output record, no error. *)
Theorem unsupported_item_is_skipped (fuel : nat) (p : NodeParameters)
    (itemIndex : nat) (st : State) :
  supported (p_resource p) (p_operation p) = false ->
  executeItem fuel p itemIndex st = Some (Done tt, st).
Proof.
  intros Hunsupported.
  destruct (executeItem_cases fuel p itemIndex)
    as [(Hr & Ho & _) | [(Hr & Ho & _) | [(Hr & Ho & _) | [(Hr & Ho & _)
       | [(Hr & Ho & _) | [(Hr & Ho & _) | (_ & Hskip)]]]]]];
    try (rewrite Hr, Ho in Hunsupported; discriminate).
  apply Hskip.
Qed.

(** ** Errors carry the item's index *)

Lemma tagged_bind {A B} (itemIndex : nat) (m : M A) (k : A -> M B) :
  tagged itemIndex m -> (forall a, tagged itemIndex (k a)) ->
  tagged itemIndex (bind m k).
Proof.
  intros Hm Hk st e st' Hrun. unfold bind in Hrun.
  destruct (m st) as [[[a|e1] st1]|] eqn:Hfirst; [| |discriminate].
  - eapply Hk, Hrun.
  - inversion Hrun; subst. eapply Hm, Hfirst.
Qed.

Lemma tagged_if {A} (itemIndex : nat) (c : bool) (m1 m2 : M A) :
  tagged itemIndex m1 -> tagged itemIndex m2 ->
  tagged itemIndex (if c then m1 else m2).
Proof. destruct c; auto. Qed.

Lemma tagged_ret {A} (itemIndex : nat) (a : A) : tagged itemIndex (ret a).
Proof. intros st e st' Hrun. discriminate. Qed.

Lemma tagged_throw {A} (itemIndex : nat) (e : NodeError) :
  errorItemIndex e = itemIndex -> tagged itemIndex (@throw A e).
Proof. intros He st e' st' Hrun. injection Hrun as <- _. exact He. Qed.

Lemma tagged_push (itemIndex : nat) (record : INodeExecutionData) :
  tagged itemIndex (push record).
Proof. intros st e st' Hrun. discriminate. Qed.

Lemma tagged_pushEntries (itemIndex : nat) (l : list Json) (i : nat) :
  tagged itemIndex (pushEntries l i).
Proof. intros st e st' Hrun. rewrite pushEntries_run in Hrun. discriminate. Qed.

Lemma tagged_lettrApiRequest (method0 : IHttpRequestMethods) (endpoint : string)
    (itemIndex : nat) (payload query : IDataObject) :
  tagged itemIndex (lettrApiRequest method0 endpoint itemIndex payload query).
Proof.
  intros st e st' Hrun. rewrite lettrApiRequest_run in Hrun. cbv zeta in Hrun.
  destruct (httpRequestWithAuthentication _ _ _); inversion Hrun; reflexivity.
Qed.

Lemma tagged_assignJsonIf (field : option string) (key fieldName : string)
    (itemIndex : nat) (o : IDataObject) :
  tagged itemIndex (assignJsonIf field key fieldName itemIndex o).
Proof.
  intros st e st' Hrun.
  destruct (malformed_dec field) as [B|G].
  - rewrite assignJsonIf_bad in Hrun by exact B. inversion Hrun. reflexivity.
  - rewrite assignJsonIf_ok in Hrun by exact G. discriminate.
Qed.

Lemma tagged_sendBody (p : NodeParameters) (to : list string) (itemIndex : nat) :
  tagged itemIndex (sendBody p to itemIndex).
Proof.
  unfold sendBody. cbv zeta.
  repeat (apply tagged_bind; [apply tagged_assignJsonIf | intros ?]).
  apply tagged_assignJsonIf.
Qed.

Lemma tagged_emailFetchAll (fuel : nat) (queryBase : IDataObject) (itemIndex : nat) :
  forall cursor entries,
  tagged itemIndex (emailFetchAll fuel queryBase itemIndex cursor entries).
Proof.
  induction fuel as [|fuel IH]; intros cursor entries; [intros st e st' Hrun; discriminate|].
  simpl. apply tagged_bind; [apply tagged_lettrApiRequest | intros response].
  apply tagged_if; [apply IH | apply tagged_ret].
Qed.

Lemma tagged_templateFetchAll (fuel : nat) (queryBase : IDataObject) (itemIndex : nat) :
  forall page entries,
  tagged itemIndex (templateFetchAll fuel queryBase itemIndex page entries).
Proof.
  induction fuel as [|fuel IH]; intros page entries; [intros st e st' Hrun; discriminate|].
  simpl. apply tagged_bind; [apply tagged_lettrApiRequest | intros response].
  destruct (Number _); [|apply tagged_ret].
  apply tagged_if; [apply IH | apply tagged_ret].
Qed.

Lemma tagged_emailSend (p : NodeParameters) (itemIndex : nat) :
  tagged itemIndex (emailSend p itemIndex).
Proof.
  unfold emailSend.
  apply tagged_if; [apply tagged_throw; reflexivity|]. cbv zeta.
  apply tagged_if; [apply tagged_throw; reflexivity|].
  apply tagged_bind; [apply tagged_sendBody | intros payload].
  apply tagged_bind; [apply tagged_lettrApiRequest | intros response].
  apply tagged_push.
Qed.

Lemma tagged_emailGet (p : NodeParameters) (itemIndex : nat) :
  tagged itemIndex (emailGet p itemIndex).
Proof.
  unfold emailGet.
  apply tagged_bind; [apply tagged_lettrApiRequest | intros response].
  apply tagged_push.
Qed.

Lemma tagged_emailGetAll (fuel : nat) (p : NodeParameters) (itemIndex : nat) :
  tagged itemIndex (emailGetAll fuel p itemIndex).
Proof.
  unfold emailGetAll. cbv zeta. apply tagged_if.
  - apply tagged_bind; [apply tagged_lettrApiRequest | intros response].
    apply tagged_if; [apply tagged_push | apply tagged_pushEntries].
  - apply tagged_bind; [apply tagged_emailFetchAll | intros entries].
    apply tagged_if; [apply tagged_push | apply tagged_pushEntries].
Qed.

Lemma tagged_templateGetAll (fuel : nat) (p : NodeParameters) (itemIndex : nat) :
  tagged itemIndex (templateGetAll fuel p itemIndex).
Proof.
  unfold templateGetAll. cbv zeta. apply tagged_if.
  - apply tagged_bind; [apply tagged_lettrApiRequest | intros response].
    apply tagged_if; [apply tagged_push | apply tagged_pushEntries].
  - apply tagged_bind; [apply tagged_templateFetchAll | intros entries].
    apply tagged_if; [apply tagged_push | apply tagged_pushEntries].
Qed.

Lemma tagged_plainGetAll (endpoint listField : string) (p : NodeParameters)
    (itemIndex : nat) :
  tagged itemIndex (plainGetAll endpoint listField p itemIndex).
Proof.
  unfold plainGetAll.
  apply tagged_bind; [apply tagged_lettrApiRequest | intros response].
  cbv zeta. apply tagged_if; [apply tagged_push | apply tagged_pushEntries].
Qed.

(** X6. The errors that the node raises itself while it works on an item
    carry that item's index: the [NodeOperationError] of a failed validation
    and the [NodeApiError] that wraps a request rejected by the host, on any
    page of any operation.  This is for hosts that resolve a request with a
    JSON object, as the return type of [lettrApiRequest] declares; an
    exception of the JavaScript runtime on a response that is not an object
    is not raised by the node, has no index, and is no [NodeError]. *)
Theorem item_errors_carry_index (fuel : nat) (p : NodeParameters)
    (itemIndex : nat) (st st' : State) (error : NodeError) :
  executeItem fuel p itemIndex st = Some (Throw error, st') ->
  errorItemIndex error = itemIndex.
Proof.
  intros Hrun.
  destruct (executeItem_cases fuel p itemIndex)
    as [(_ & _ & Hd) | [(_ & _ & Hd) | [(_ & _ & Hd) | [(_ & _ & Hd)
       | [(_ & _ & Hd) | [(_ & _ & Hd) | (_ & Hd)]]]]]];
    rewrite Hd in Hrun.
  - eapply tagged_emailSend, Hrun.
  - eapply tagged_emailGet, Hrun.
  - eapply tagged_emailGetAll, Hrun.
  - eapply tagged_plainGetAll, Hrun.
  - eapply tagged_templateGetAll, Hrun.
  - eapply tagged_plainGetAll, Hrun.
  - discriminate.
Qed.

(** ** Output records are paired to their item, in item order *)

Lemma pairsTo_quiet {A} (itemIndex : nat) (m : M A) : quiet m -> pairsTo itemIndex m.
Proof.
  intros Hm st out st' Hrun. exists []. rewrite app_nil_r.
  split; [eapply Hm, Hrun | constructor].
Qed.

Lemma pairsTo_bind {A B} (itemIndex : nat) (m : M A) (k : A -> M B) :
  pairsTo itemIndex m -> (forall a, pairsTo itemIndex (k a)) ->
  pairsTo itemIndex (bind m k).
Proof.
  intros Hm Hk st out st' Hrun. unfold bind in Hrun.
  destruct (m st) as [[[a|e] st1]|] eqn:Hfirst; [| |discriminate].
  - destruct (Hm _ _ _ Hfirst) as (new1 & E1 & F1).
    destruct (Hk _ _ _ _ Hrun) as (new2 & E2 & F2).
    exists (new1 ++ new2)%list. rewrite E2, E1, app_assoc.
    split; [reflexivity | apply Forall_app; auto].
  - inversion Hrun; subst. eapply Hm, Hfirst.
Qed.

Lemma pairsTo_if {A} (itemIndex : nat) (c : bool) (m1 m2 : M A) :
  pairsTo itemIndex m1 -> pairsTo itemIndex m2 ->
  pairsTo itemIndex (if c then m1 else m2).
Proof. destruct c; auto. Qed.

Lemma pairsTo_push (itemIndex : nat) (v : Json) :
  pairsTo itemIndex (push {| ned_json := v; pairedItem := itemIndex |}).
Proof.
  intros st out st' Hrun. inversion Hrun; subst. simpl.
  eexists. split; [reflexivity|]. repeat constructor.
Qed.

Lemma pairsTo_pushEntries (itemIndex : nat) (l : list Json) :
  pairsTo itemIndex (pushEntries l itemIndex).
Proof.
  intros st out st' Hrun. rewrite pushEntries_run in Hrun.
  inversion Hrun; subst. simpl.
  eexists. split; [reflexivity | apply entryRecords_json].
Qed.

Lemma quiet_emailFetchAll (fuel : nat) (queryBase : IDataObject) (itemIndex : nat)
    (cursor : option Json) (entries : list Json) :
  quiet (emailFetchAll fuel queryBase itemIndex cursor entries).
Proof. intros st out st'. apply emailFetchAll_returnData. Qed.

Lemma quiet_templateFetchAll (fuel : nat) (queryBase : IDataObject) (itemIndex : nat)
    (page : Z) (entries : list Json) :
  quiet (templateFetchAll fuel queryBase itemIndex page entries).
Proof. intros st out st'. apply templateFetchAll_returnData. Qed.

Lemma pairsTo_emailSend (p : NodeParameters) (itemIndex : nat) :
  pairsTo itemIndex (emailSend p itemIndex).
Proof.
  unfold emailSend.
  apply pairsTo_if; [apply pairsTo_quiet, quiet_throw|]. cbv zeta.
  apply pairsTo_if; [apply pairsTo_quiet, quiet_throw|].
  apply pairsTo_bind; [apply pairsTo_quiet, quiet_sendBody | intros payload].
  apply pairsTo_bind; [apply pairsTo_quiet, quiet_lettrApiRequest | intros response].
  apply pairsTo_push.
Qed.

Lemma pairsTo_emailGet (p : NodeParameters) (itemIndex : nat) :
  pairsTo itemIndex (emailGet p itemIndex).
Proof.
  unfold emailGet.
  apply pairsTo_bind; [apply pairsTo_quiet, quiet_lettrApiRequest | intros response].
  apply pairsTo_push.
Qed.

Lemma pairsTo_emailGetAll (fuel : nat) (p : NodeParameters) (itemIndex : nat) :
  pairsTo itemIndex (emailGetAll fuel p itemIndex).
Proof.
  unfold emailGetAll. cbv zeta. apply pairsTo_if.
  - apply pairsTo_bind; [apply pairsTo_quiet, quiet_lettrApiRequest | intros response].
    apply pairsTo_if; [apply pairsTo_push | apply pairsTo_pushEntries].
  - apply pairsTo_bind; [apply pairsTo_quiet, quiet_emailFetchAll | intros entries].
    apply pairsTo_if; [apply pairsTo_push | apply pairsTo_pushEntries].
Qed.

Lemma pairsTo_templateGetAll (fuel : nat) (p : NodeParameters) (itemIndex : nat) :
  pairsTo itemIndex (templateGetAll fuel p itemIndex).
Proof.
  unfold templateGetAll. cbv zeta. apply pairsTo_if.
  - apply pairsTo_bind; [apply pairsTo_quiet, quiet_lettrApiRequest | intros response].
    apply pairsTo_if; [apply pairsTo_push | apply pairsTo_pushEntries].
  - apply pairsTo_bind; [apply pairsTo_quiet, quiet_templateFetchAll | intros entries].
    apply pairsTo_if; [apply pairsTo_push | apply pairsTo_pushEntries].
Qed.

Lemma pairsTo_plainGetAll (endpoint listField : string) (p : NodeParameters)
    (itemIndex : nat) :
  pairsTo itemIndex (plainGetAll endpoint listField p itemIndex).
Proof.
  unfold plainGetAll.
  apply pairsTo_bind; [apply pairsTo_quiet, quiet_lettrApiRequest | intros response].
  cbv zeta. apply pairsTo_if; [apply pairsTo_push | apply pairsTo_pushEntries].
Qed.

Lemma pairsTo_executeItem (fuel : nat) (p : NodeParameters) (itemIndex : nat) :
  pairsTo itemIndex (executeItem fuel p itemIndex).
Proof.
  intros st out st' Hrun.
  destruct (executeItem_cases fuel p itemIndex)
    as [(_ & _ & Hd) | [(_ & _ & Hd) | [(_ & _ & Hd) | [(_ & _ & Hd)
       | [(_ & _ & Hd) | [(_ & _ & Hd) | (_ & Hd)]]]]]];
    rewrite Hd in Hrun.
  - eapply pairsTo_emailSend, Hrun.
  - eapply pairsTo_emailGet, Hrun.
  - eapply pairsTo_emailGetAll, Hrun.
  - eapply pairsTo_plainGetAll, Hrun.
  - eapply pairsTo_templateGetAll, Hrun.
  - eapply pairsTo_plainGetAll, Hrun.
  - inversion Hrun; subst. exists []. rewrite app_nil_r. split; constructor.
Qed.

Lemma sorted_block (block rest : list INodeExecutionData) (start : nat) :
  Forall (fun r => pairedItem r = start) block ->
  Forall (fun r => (start <= pairedItem r)%nat) rest ->
  StronglySorted le (pairedItems rest) ->
  StronglySorted le (pairedItems (block ++ rest)).
Proof.
  intros Hblock Hrest Hsorted. unfold pairedItems in *.
  induction Hblock as [|r block Hr Hblock IH]; simpl; [exact Hsorted|].
  apply StronglySorted_cons. split; [|exact IH].
  rewrite fmap_app. apply Forall_app. split; apply Forall_fmap.
  - eapply Forall_impl; [exact Hblock|]. simpl. intros x Hx. lia.
  - eapply Forall_impl; [exact Hrest|]. simpl. intros x Hx. lia.
Qed.

Lemma executeItems_ordered (fuel : nat) (items : list NodeParameters) :
  forall start st out st',
  executeItems fuel items start st = Some (out, st') ->
  exists new,
    returnData st' = (returnData st ++ new)%list
    /\ Forall (fun r => (start <= pairedItem r < start + length items)%nat) new
    /\ StronglySorted le (pairedItems new).
Proof.
  induction items as [|p rest IH]; intros start st out st' Hrun; simpl in Hrun.
  - inversion Hrun; subst. exists []. rewrite app_nil_r.
    repeat split; constructor.
  - assert (Hstep : exists block st1,
              returnData st1 = (returnData st ++ block)%list
              /\ Forall (fun r => pairedItem r = start) block
              /\ (executeItems fuel rest (S start) st1 = Some (out, st')
                  \/ st' = st1)).
    { destruct (executeItem fuel p start st) as [[[[]|e] st1]|] eqn:Hitem;
        [| |discriminate];
        destruct (pairsTo_executeItem _ _ _ _ _ _ Hitem) as (block & E & F).
      - exists block, st1. auto.
      - destruct continueOnFail.
        + exists (block ++ [errorRecord e start])%list,
            (afterOutput st1 [errorRecord e start]).
          simpl. rewrite E, app_assoc. split; [reflexivity|].
          split; [apply Forall_app; split; [exact F | repeat constructor]|].
          left. exact Hrun.
        + exists block, st1. inversion Hrun; subst. auto. }
    destruct Hstep as (block & st1 & E & F & [Hrest | ->]).
    + destruct (IH _ _ _ _ Hrest) as (new & E' & B & S').
      exists (block ++ new)%list. rewrite E', E, app_assoc.
      split; [reflexivity|]. split.
      * apply Forall_app. split.
        -- eapply Forall_impl; [exact F|]. simpl. intros r Hr. lia.
        -- eapply Forall_impl; [exact B|]. simpl. intros r Hr. lia.
      * apply sorted_block with (start := start); [exact F | | exact S'].
        eapply Forall_impl; [exact B|]. simpl. intros r Hr. lia.
    + exists block. split; [exact E|]. split.
      * eapply Forall_impl; [exact F|]. simpl. intros r Hr. lia.
      * rewrite <- (app_nil_r block).
        apply sorted_block with (start := start); [exact F | constructor | constructor].
Qed.

(** X7. Whatever the work on an item does, it only appends to
    [returnData], and every record it appends is paired to that item's
    index. *)
Theorem item_output_paired (fuel : nat) (p : NodeParameters) (itemIndex : nat)
    (st st' : State) (out : Outcome unit) :
  executeItem fuel p itemIndex st = Some (out, st') ->
  exists new,
    returnData st' = (returnData st ++ new)%list
    /\ Forall (fun r => pairedItem r = itemIndex) new.
Proof. apply pairsTo_executeItem. Qed.

(** X8. The output of [execute] follows the input: it is the one list
    [returnData], every record in it is paired to the index of an input
    item, and the paired indices never decrease along the list. *)
Theorem execute_output_follows_items (fuel : nat) (items : list NodeParameters)
    (result : list (list INodeExecutionData)) (st' : State) :
  execute fuel items = Some (Done result, st') ->
  result = [returnData st']
  /\ Forall (fun r => (pairedItem r < length items)%nat) (returnData st')
  /\ StronglySorted le (pairedItems (returnData st')).
Proof.
  unfold execute, bind. intros Hrun.
  destruct (executeItems fuel items 0 initialState) as [[[[]|e] st1]|] eqn:Hloop;
    try discriminate.
  inversion Hrun; subst. split; [reflexivity|].
  destruct (executeItems_ordered _ _ _ _ _ _ Hloop) as (new & E & B & S').
  simpl in E. rewrite E. split; [|exact S'].
  eapply Forall_impl; [exact B|]. simpl. intros r Hr. lia.
Qed.

(** ** One request per item, unless the item fetches exhaustively *)

Lemma offline_ret {A} (a : A) : offline (ret a).
Proof. intros st. do 2 eexists. split; reflexivity. Qed.

Lemma offline_throw {A} (e : NodeError) : offline (@throw A e).
Proof. intros st. do 2 eexists. split; reflexivity. Qed.

Lemma offline_push (record : INodeExecutionData) : offline (push record).
Proof. intros st. do 2 eexists. split; reflexivity. Qed.

Lemma offline_pushEntries (l : list Json) (itemIndex : nat) :
  offline (pushEntries l itemIndex).
Proof. intros st. rewrite pushEntries_run. do 2 eexists. split; reflexivity. Qed.

Lemma offline_if {A} (c : bool) (m1 m2 : M A) :
  offline m1 -> offline m2 -> offline (if c then m1 else m2).
Proof. destruct c; auto. Qed.

Lemma offline_bind {A B} (m : M A) (k : A -> M B) :
  offline m -> (forall a, offline (k a)) -> offline (bind m k).
Proof.
  intros Hm Hk st. unfold bind.
  destruct (Hm st) as ([a|e] & st1 & -> & E1).
  - destruct (Hk a st1) as (out & st2 & -> & E2).
    do 2 eexists. split; [reflexivity | congruence].
  - do 2 eexists. split; [reflexivity | exact E1].
Qed.

Lemma offline_assignJsonIf (field : option string) (key fieldName : string)
    (itemIndex : nat) (o : IDataObject) :
  offline (assignJsonIf field key fieldName itemIndex o).
Proof.
  intros st. destruct (malformed_dec field) as [B|G].
  - rewrite assignJsonIf_bad by exact B. do 2 eexists. split; reflexivity.
  - rewrite assignJsonIf_ok by exact G. do 2 eexists. split; reflexivity.
Qed.

Lemma offline_sendBody (p : NodeParameters) (to : list string) (itemIndex : nat) :
  offline (sendBody p to itemIndex).
Proof.
  unfold sendBody. cbv zeta.
  repeat (apply offline_bind; [apply offline_assignJsonIf | intros ?]).
  apply offline_assignJsonIf.
Qed.

Lemma oneShot_offline {A} (m : M A) : offline m -> oneShot m.
Proof.
  intros Hm st. destruct (Hm st) as (out & st' & Hrun & E).
  exists out, st', []. rewrite app_nil_r. simpl. auto.
Qed.

Lemma oneShot_if {A} (c : bool) (m1 m2 : M A) :
  oneShot m1 -> oneShot m2 -> oneShot (if c then m1 else m2).
Proof. destruct c; auto. Qed.

Lemma oneShot_after {A B} (m : M A) (k : A -> M B) :
  offline m -> (forall a, oneShot (k a)) -> oneShot (bind m k).
Proof.
  intros Hm Hk st. unfold bind.
  destruct (Hm st) as ([a|e] & st1 & -> & E1).
  - destruct (Hk a st1) as (out & st2 & reqs & -> & E2 & L).
    exists out, st2, reqs. rewrite E2, E1. auto.
  - exists (Throw e), st1, []. rewrite app_nil_r. simpl. auto.
Qed.

Lemma oneShot_request {B} (method0 : IHttpRequestMethods) (endpoint : string)
    (itemIndex : nat) (payload query : IDataObject) (k : IDataObject -> M B) :
  (forall response, offline (k response)) ->
  oneShot (bind (lettrApiRequest method0 endpoint itemIndex payload query) k).
Proof.
  intros Hk st. unfold bind. rewrite lettrApiRequest_run. cbv zeta.
  destruct (httpRequestWithAuthentication _ _ _) as [response|message].
  - destruct (Hk response (afterRequests st [requestOptions method0 endpoint payload query]))
      as (out & st2 & -> & E2).
    exists out, st2, [requestOptions method0 endpoint payload query].
    split; [reflexivity|]. rewrite E2. simpl. split; [reflexivity | lia].
  - eexists _, _, [requestOptions method0 endpoint payload query].
    split; [reflexivity|]. simpl. split; [reflexivity | lia].
Qed.

Lemma oneShot_emailSend (p : NodeParameters) (itemIndex : nat) :
  oneShot (emailSend p itemIndex).
Proof.
  unfold emailSend.
  apply oneShot_if; [apply oneShot_offline, offline_throw|]. cbv zeta.
  apply oneShot_if; [apply oneShot_offline, offline_throw|].
  apply oneShot_after; [apply offline_sendBody | intros payload].
  apply oneShot_request. intros response. apply offline_push.
Qed.

Lemma oneShot_emailGet (p : NodeParameters) (itemIndex : nat) :
  oneShot (emailGet p itemIndex).
Proof.
  unfold emailGet. apply oneShot_request. intros response. apply offline_push.
Qed.

Lemma oneShot_plainGetAll (endpoint listField : string) (p : NodeParameters)
    (itemIndex : nat) :
  oneShot (plainGetAll endpoint listField p itemIndex).
Proof.
  unfold plainGetAll. apply oneShot_request. intros response. cbv zeta.
  apply offline_if; [apply offline_push | apply offline_pushEntries].
Qed.

Lemma oneShot_emailGetAll (fuel : nat) (p : NodeParameters) (itemIndex : nat) :
  p_returnAll p = false -> oneShot (emailGetAll fuel p itemIndex).
Proof.
  intros Hall. unfold emailGetAll. rewrite Hall. cbv zeta. simpl.
  apply oneShot_request. intros response.
  apply offline_if; [apply offline_push | apply offline_pushEntries].
Qed.

Lemma oneShot_templateGetAll (fuel : nat) (p : NodeParameters) (itemIndex : nat) :
  p_returnAll p = false -> oneShot (templateGetAll fuel p itemIndex).
Proof.
  intros Hall. unfold templateGetAll. rewrite Hall. cbv zeta. simpl.
  apply oneShot_request. intros response.
  apply offline_if; [apply offline_push | apply offline_pushEntries].
Qed.

Lemma oneShot_executeItem (fuel : nat) (p : NodeParameters) (itemIndex : nat) :
  exhaustive p = false -> oneShot (executeItem fuel p itemIndex).
Proof.
  intros Hex st. unfold exhaustive in Hex.
  destruct (executeItem_cases fuel p itemIndex)
    as [(Hr & Ho & Hd) | [(Hr & Ho & Hd) | [(Hr & Ho & Hd) | [(Hr & Ho & Hd)
       | [(Hr & Ho & Hd) | [(Hr & Ho & Hd) | (_ & Hd)]]]]]];
    rewrite Hd; try rewrite Hr, Ho in Hex; simpl in Hex.
  - apply oneShot_emailSend.
  - apply oneShot_emailGet.
  - apply oneShot_emailGetAll. destruct (p_returnAll p); [discriminate | reflexivity].
  - apply oneShot_plainGetAll.
  - apply oneShot_templateGetAll. destruct (p_returnAll p); [discriminate | reflexivity].
  - apply oneShot_plainGetAll.
  - exists (Done tt), st, []. rewrite app_nil_r. simpl. auto.
Qed.

(** X9. An item that does not fetch exhaustively (anything but "getAll"
    with [returnAll] on emails or templates) always completes, whatever the
    fuel, and issues at most one request: there is no retry. *)
Theorem item_issues_at_most_one_request (fuel : nat) (p : NodeParameters)
    (itemIndex : nat) (st : State) :
  exhaustive p = false ->
  exists out st' reqs,
    executeItem fuel p itemIndex st = Some (out, st')
    /\ requests st' = (requests st ++ reqs)%list /\ (length reqs <= 1)%nat.
Proof. intros Hex. apply oneShot_executeItem, Hex. Qed.

(** X10. A batch without exhaustive fetches always completes, and issues
    at most as many requests as it has items. *)
Theorem batch_request_budget (fuel : nat) (items : list NodeParameters) :
  Forall (fun p => exhaustive p = false) items ->
  forall start st,
  exists out st',
    executeItems fuel items start st = Some (out, st')
    /\ (length (requests st) <= length (requests st')
        <= length (requests st) + length items)%nat.
Proof.
  intros Hitems. induction Hitems as [|p rest Hp _ IH]; intros start st; simpl.
  - do 2 eexists. split; [reflexivity | lia].
  - destruct (oneShot_executeItem fuel p start Hp st)
      as (out1 & st1 & reqs & -> & E & L).
    assert (Hlen : (length (requests st) <= length (requests st1)
                    <= length (requests st) + 1)%nat)
      by (rewrite E, length_app; lia).
    destruct out1 as [[]|e].
    + destruct (IH (S start) st1) as (out & st' & -> & L').
      do 2 eexists. split; [reflexivity | lia].
    + destruct continueOnFail.
      * unfold bind, push.
        destruct (IH (S start) (afterOutput st1 [errorRecord e start]))
          as (out & st' & Hrun & L').
        unfold afterOutput in Hrun. rewrite Hrun.
        do 2 eexists. split; [reflexivity|]. simpl in L'. lia.
      * do 2 eexists. split; [reflexivity | lia].
Qed.

(** ** A request that fails in the middle of an exhaustive fetch *)

Lemma emailFetchAll_breaks (queryBase : IDataObject) (itemIndex : nat)
    (pages : list (IDataObject * string)) (message : string) :
  Forall (fun pc => nextCursor pc.1 = Some (JStr pc.2) /\ pc.2 <> EmptyString) pages ->
  forall (cursor : option Json) (entries : list Json) (st : State) (fuel : nat),
  match cursor with Some c => truthy c = true | None => True end ->
  let cursors := cursor :: ((fun pc => Some (JStr pc.2)) <$> pages) in
  let results := ((HttpOk <$> (fst <$> pages)) ++ [HttpFail message])%list in
  let reqs := emailPageRequest queryBase <$> cursors in
  serves (requests st) (zip reqs results) ->
  (length pages < fuel)%nat ->
  emailFetchAll fuel queryBase itemIndex cursor entries st
  = Some (Throw (NodeApiError message itemIndex), afterRequests st reqs).
Proof.
  intros Hpages.
  induction Hpages as [|[r c] pages [Hr Hc] _ IH];
    intros cursor entries st fuel Hcur cursors results reqs Hserve Hfuel;
    (destruct fuel as [|fuel]; [simpl in Hfuel; lia|]);
    rewrite emailFetchAll_turn by exact Hcur;
    simpl in Hserve; destruct Hserve as [Hfirst Hrest]; cbv zeta; rewrite Hfirst.
  - reflexivity.
  - simpl in Hr, Hc. rewrite Hr. simpl.
    assert (Ht : truthyStr c = true) by (destruct c; [congruence | reflexivity]).
    rewrite Ht.
    rewrite (IH (Some (JStr c))); [| exact Ht | exact Hrest | simpl in Hfuel; lia].
    rewrite afterRequests_app. reflexivity.
Qed.

(** X11. When a request fails in the middle of the exhaustive fetch of
    emails, after any number of pages that were fetched, the operation
    throws a [NodeApiError] with the host's message and the item's index
    right after that request, and pushes nothing: the entries of the pages
    before are not part of the output. *)
Theorem email_getAll_breaks (fuel : nat) (p : NodeParameters) (itemIndex : nat)
    (pages : list (IDataObject * string)) (message : string) (st : State) :
  let cursors := orUndefined (p_cursor p) :: ((fun pc => Some (JStr pc.2)) <$> pages) in
  let results := ((HttpOk <$> (fst <$> pages)) ++ [HttpFail message])%list in
  let reqs := emailPageRequest (emailQueryBase p) <$> cursors in
  p_returnAll p = true ->
  Forall (fun pc => nextCursor pc.1 = Some (JStr pc.2) /\ pc.2 <> EmptyString) pages ->
  serves (requests st) (zip reqs results) ->
  (length pages < fuel)%nat ->
  emailGetAll fuel p itemIndex st
  = Some (Throw (NodeApiError message itemIndex),
          {| requests := (requests st ++ reqs)%list; returnData := returnData st |})
  /\ length reqs = S (length pages).
Proof.
  intros cursors results reqs Hall Hpages Hserve Hfuel. split.
  - unfold emailGetAll. rewrite Hall. cbv zeta. simpl. unfold bind.
    rewrite (emailFetchAll_breaks _ _ pages message Hpages); try assumption.
    + reflexivity.
    + unfold orUndefined. destruct (truthyStr (p_cursor p)) eqn:E; [exact E | exact I].
  - subst reqs cursors. simpl. rewrite !length_fmap. reflexivity.
Qed.

Lemma templateFetchAll_breaks (queryBase : IDataObject) (itemIndex : nat)
    (pages : list (IDataObject * (Z * Z))) (message : string) :
  Forall (fun pg => reportsPages pg.1 pg.2.1 pg.2.2 /\ (pg.2.1 < pg.2.2)%Z) pages ->
  forall (page : Z) (entries : list Json) (st : State) (fuel : nat),
  let numbers := page :: ((fun pg => pg.2.1 + 1)%Z <$> pages) in
  let results := ((HttpOk <$> (fst <$> pages)) ++ [HttpFail message])%list in
  let reqs := templatePageRequest queryBase <$> numbers in
  serves (requests st) (zip reqs results) ->
  (length pages < fuel)%nat ->
  templateFetchAll fuel queryBase itemIndex page entries st
  = Some (Throw (NodeApiError message itemIndex), afterRequests st reqs).
Proof.
  intros Hpages.
  induction Hpages as [|[r [c l]] pages [Hr Hlt] _ IH];
    intros page entries st fuel numbers results reqs Hserve Hfuel;
    (destruct fuel as [|fuel]; [simpl in Hfuel; lia|]);
    rewrite templateFetchAll_turn;
    simpl in Hserve; destruct Hserve as [Hfirst Hrest]; cbv zeta; rewrite Hfirst.
  - reflexivity.
  - simpl in Hr, Hlt.
    destruct (reportsPages_current page _ _ _ Hr) as (-> & _ & ->).
    replace (c <? l)%Z with true by (symmetry; apply Z.ltb_lt; lia).
    rewrite (IH (c + 1)%Z); [| exact Hrest | simpl in Hfuel; lia].
    rewrite afterRequests_app. reflexivity.
Qed.

(** X12. The same for templates: a request that fails after any number of
    fetched pages makes the operation throw a [NodeApiError] with the
    item's index, and nothing is pushed. *)
Theorem template_getAll_breaks (fuel : nat) (p : NodeParameters) (itemIndex : nat)
    (pages : list (IDataObject * (Z * Z))) (message : string) (st : State) :
  let numbers := Z.max 1 (p_templatePage p) :: ((fun pg => pg.2.1 + 1)%Z <$> pages) in
  let results := ((HttpOk <$> (fst <$> pages)) ++ [HttpFail message])%list in
  let reqs := templatePageRequest (templateQueryBase p) <$> numbers in
  p_returnAll p = true ->
  Forall (fun pg => reportsPages pg.1 pg.2.1 pg.2.2 /\ (pg.2.1 < pg.2.2)%Z) pages ->
  serves (requests st) (zip reqs results) ->
  (length pages < fuel)%nat ->
  templateGetAll fuel p itemIndex st
  = Some (Throw (NodeApiError message itemIndex),
          {| requests := (requests st ++ reqs)%list; returnData := returnData st |})
  /\ length reqs = S (length pages).
Proof.
  intros numbers results reqs Hall Hpages Hserve Hfuel. split.
  - unfold templateGetAll. rewrite Hall. cbv zeta. simpl. unfold bind.
    rewrite (templateFetchAll_breaks _ _ pages message Hpages); try assumption.
    reflexivity.
  - subst reqs numbers. simpl. rewrite !length_fmap. reflexivity.
Qed.

(** ** Servers that never end the pagination *)

(** X13. The cursor loop has no cap of its own: against a server that
    hands out a non-empty cursor with every response, no amount of fuel
    lets the exhaustive fetch of emails return. *)
Theorem email_fetchAll_unbounded (p : NodeParameters) (itemIndex : nat) :
  (forall history options,
     exists response,
       httpRequestWithAuthentication history "lettrApi" options = HttpOk response
       /\ truthyOpt (nextCursor response) = true) ->
  p_returnAll p = true ->
  forall fuel st, emailGetAll fuel p itemIndex st = None.
Proof.
  intros Hhost Hall.
  assert (Hloop : forall fuel queryBase cursor entries st,
            emailFetchAll fuel queryBase itemIndex cursor entries st = None).
  { induction fuel as [|fuel IH]; intros queryBase cursor entries st; [reflexivity|].
    simpl. unfold bind. rewrite lettrApiRequest_run. cbv zeta.
    match goal with
    | |- context [httpRequestWithAuthentication ?h ?c ?o] =>
        destruct (Hhost h o) as (response & -> & Hmore)
    end.
    unfold nextCursor in Hmore. rewrite Hmore. apply IH. }
  intros fuel st. unfold emailGetAll. rewrite Hall. cbv zeta. simpl.
  unfold bind. rewrite Hloop. reflexivity.
Qed.

(** X14. Neither has the page loop: against a server whose every response
    reports a [current_page] below its [last_page], no amount of fuel lets
    the exhaustive fetch of templates return. *)
Theorem template_fetchAll_unbounded (p : NodeParameters) (itemIndex : nat) :
  (forall history options,
     exists response current last,
       httpRequestWithAuthentication history "lettrApi" options = HttpOk response
       /\ reportsPages response current last /\ (current < last)%Z) ->
  p_returnAll p = true ->
  forall fuel st, templateGetAll fuel p itemIndex st = None.
Proof.
  intros Hhost Hall.
  assert (Hloop : forall fuel queryBase page entries st,
            templateFetchAll fuel queryBase itemIndex page entries st = None).
  { induction fuel as [|fuel IH]; intros queryBase page entries st; [reflexivity|].
    rewrite templateFetchAll_turn. cbv zeta.
    destruct (Hhost (requests st) (templatePageRequest queryBase page))
      as (response & current & last & -> & Hr & Hlt).
    destruct (reportsPages_current page _ _ _ Hr) as (-> & _ & ->).
    replace (current <? last)%Z with true by (symmetry; apply Z.ltb_lt; lia).
    apply IH. }
  intros fuel st. unfold templateGetAll. rewrite Hall. cbv zeta. simpl.
  unfold bind. rewrite Hloop. reflexivity.
Qed.

(** ** Page reports that are not numbers *)

(** X15. A response whose [current_page] or [last_page] does not convert to
    a number ([Number] gives [NaN]) ends the page loop with that request:
    the comparison with [NaN] is false. *)
Theorem template_fetchAll_stops_on_NaN (fuel : nat) (queryBase : IDataObject)
    (itemIndex : nat) (page : Z) (entries : list Json) (st : State)
    (response : IDataObject) :
  httpRequestWithAuthentication (requests st) "lettrApi"
    (templatePageRequest queryBase page) = HttpOk response ->
  currentPageOf page response = None \/ lastPageOf page response = None ->
  templateFetchAll (S fuel) queryBase itemIndex page entries st
  = Some (Done (entries ++ getResponseList response "templates")%list,
          afterRequests st [templatePageRequest queryBase page]).
Proof.
  intros Hresp Hnan. rewrite templateFetchAll_turn. cbv zeta. rewrite Hresp.
  unfold hasMoreAfter.
  destruct Hnan as [-> | ->]; [reflexivity|].
  destruct (currentPageOf page response); reflexivity.
Qed.

(** ** Output of the template listing and of the raw forms *)

(** X16. After an exhaustive page fetch of templates that accumulated
    [entries], [simplify = false] adds exactly one record
    [{data: {templates: entries}}] and [simplify = true] one record per
    entry, in order, all paired to the item. *)
Theorem template_getAll_exhaustive_output (fuel : nat) (p : NodeParameters)
    (itemIndex : nat) (entries : list Json) (st st1 : State) :
  p_returnAll p = true ->
  templateFetchAll fuel (templateQueryBase p) itemIndex
    (Z.max 1 (p_templatePage p)) [] st = Some (Done entries, st1) ->
  let synthesized : IDataObject :=
    {[ "data" := JObj {[ "templates" := JArr entries ]} ]} in
  templateGetAll fuel p itemIndex st
  = Some (Done tt,
          afterOutput st1
            (if p_simplify p then entryRecords entries itemIndex
             else [ {| ned_json := JObj synthesized; pairedItem := itemIndex |} ]))
  /\ returnData st1 = returnData st
  /\ getResponseList synthesized "templates" = entries
  /\ getPagination synthesized = JObj ∅.
Proof.
  intros Hall Hrun synthesized. split; [|split; [|split]].
  - unfold templateGetAll. rewrite Hall. cbv zeta. simpl. unfold bind. rewrite Hrun.
    destruct (p_simplify p); simpl; [apply pushEntries_run | reflexivity].
  - eapply templateFetchAll_returnData, Hrun.
  - reflexivity.
  - reflexivity.
Qed.

(** X17. An item that asks for one email ("get") or for a single page of
    emails or templates with [simplify = false] gets the server's response
    as it came, pagination metadata included: one request, one record whose
    json is the response, paired to the item. *)
Theorem raw_response_is_passed_on (fuel : nat) (p : NodeParameters)
    (itemIndex : nat) (st : State) (response : IDataObject) :
  let options :=
    if String.eqb (p_operation p) "get"
    then requestOptions GET ("/emails/" +:+ p_requestId p) ∅ ∅
    else if String.eqb (p_resource p) "email"
         then requestOptions GET "/emails" ∅ (emailPageQuery p)
         else requestOptions GET "/templates" ∅ (templatePageQuery p) in
  (p_resource p = "email" /\ p_operation p = "get")
  \/ ((p_resource p = "email" \/ p_resource p = "template")
      /\ p_operation p = "getAll" /\ p_returnAll p = false /\ p_simplify p = false) ->
  httpRequestWithAuthentication (requests st) "lettrApi" options = HttpOk response ->
  executeItem fuel p itemIndex st
  = Some (Done tt,
          afterOutput (afterRequests st [options])
            [ {| ned_json := JObj response; pairedItem := itemIndex |} ]).
Proof.
  intros options Hkind Hresp.
  destruct (executeItem_cases fuel p itemIndex)
    as [(Hr & Ho & Hd) | [(Hr & Ho & Hd) | [(Hr & Ho & Hd) | [(Hr & Ho & Hd)
       | [(Hr & Ho & Hd) | [(Hr & Ho & Hd) | (Hun & Hd)]]]]]];
    rewrite Hd; subst options; try rewrite Hr, Ho in *; simpl in Hresp;
    try (exfalso;
         destruct Hkind as [[? ?] | [[?|?] [? _]]]; congruence).
  - unfold emailGet, bind. rewrite lettrApiRequest_run. cbv zeta.
    rewrite Hresp. reflexivity.
  - destruct Hkind as [[_ ?] | (_ & _ & Hall & Hsimp)]; [discriminate|].
    unfold emailGetAll. rewrite Hall, Hsimp. simpl.
    unfold bind. rewrite lettrApiRequest_run. cbv zeta. rewrite Hresp. reflexivity.
  - destruct Hkind as [[_ ?] | (_ & _ & Hall & Hsimp)]; [discriminate|].
    unfold templateGetAll. rewrite Hall, Hsimp. simpl.
    unfold bind. rewrite lettrApiRequest_run. cbv zeta. rewrite Hresp. reflexivity.
  - exfalso. unfold supported in Hun.
    destruct Hkind as [[Hr Ho] | [[Hr|Hr] [Ho _]]]; rewrite Hr, Ho in Hun;
      discriminate.
Qed.

Lemma plainGetAll_raw (endpoint listField : string) (p : NodeParameters)
    (itemIndex : nat) (st st' : State) :
  p_simplify p = false ->
  plainGetAll endpoint listField p itemIndex st = Some (Done tt, st') ->
  exists response,
    httpRequestWithAuthentication (requests st) "lettrApi"
      (requestOptions GET endpoint ∅ ∅) = HttpOk response
    /\ st' = afterOutput (afterRequests st [requestOptions GET endpoint ∅ ∅])
               [ {| ned_json :=
                      JObj (<["data" :=
                                JObj (<[listField :=
                                          JArr (if p_returnAll p
                                                then getResponseList response listField
                                                else slice0 (getResponseList response listField)
                                                       (p_limit p))]>
                                        (spread (getResponseData response)))]>
                              response);
                    pairedItem := itemIndex |} ].
Proof.
  intros Hsimp Hrun. unfold plainGetAll, bind in Hrun.
  rewrite lettrApiRequest_run in Hrun. cbv zeta in Hrun.
  destruct (httpRequestWithAuthentication _ _ _) as [response|message];
    [|discriminate].
  exists response. split; [reflexivity|].
  rewrite Hsimp in Hrun. simpl in Hrun. inversion Hrun. reflexivity.
Qed.

(** X18. With [simplify = false] the listings of domains and webhooks
    change one thing in the response: the list field, which holds the
    entries that were kept.  Every other top-level property of the response
    and every other property of its [data] object is in the output as the
    server sent it. *)
Theorem plain_getAll_keeps_the_rest (endpoint listField : string)
    (p : NodeParameters) (itemIndex : nat) (st st' : State) :
  p_simplify p = false ->
  plainGetAll endpoint listField p itemIndex st = Some (Done tt, st') ->
  exists (response output data' : IDataObject),
    httpRequestWithAuthentication (requests st) "lettrApi"
      (requestOptions GET endpoint ∅ ∅) = HttpOk response
    /\ returnData st'
       = (returnData st ++ [ {| ned_json := JObj output; pairedItem := itemIndex |} ])%list
    /\ output !! "data" = Some (JObj data')
    /\ (forall key, key <> "data" -> output !! key = response !! key)
    /\ getResponseList output listField
       = (if p_returnAll p then getResponseList response listField
          else slice0 (getResponseList response listField) (p_limit p))
    /\ (forall key data, key <> listField ->
          response !! "data" = Some (JObj data) -> data' !! key = data !! key).
Proof.
  intros Hsimp Hrun.
  destruct (plainGetAll_raw _ _ _ _ _ _ Hsimp Hrun) as (response & Hresp & ->).
  eexists response, _, _. split; [exact Hresp|]. split; [reflexivity|].
  split; [apply lookup_insert_eq|]. split; [|split].
  - intros key Hkey. apply lookup_insert_ne. congruence.
  - unfold getResponseList at 1, getResponseData at 1, coalesce.
    rewrite lookup_insert_eq. simpl. rewrite lookup_insert_eq. reflexivity.
  - intros key data Hkey Hdata. rewrite lookup_insert_ne by congruence.
    unfold getResponseData, coalesce. rewrite Hdata. reflexivity.
Qed.

(** ** What the list requests ask for *)

Lemma emailQuery_reads (p : NodeParameters) (perPage : Z) (cursor : option Json) :
  let q := assignOpt cursor "cursor" (<["per_page" := JNum perPage]> (emailQueryBase p)) in
  (forall key value, (key, value) ∈ emailQueryFields p perPage cursor -> q !! key = value)
  /\ (forall key, is_Some (q !! key) ->
        key ∈ (fst <$> emailQueryFields p perPage cursor)).
Proof.
  cbv zeta. unfold emailQueryBase, emailQueryFields. cbv zeta. split.
  - intros key value Hin.
    repeat (apply elem_of_cons in Hin as [Hin|Hin];
            [injection Hin as -> ->;
             repeat first
               [ rewrite lookup_assignOpt_ne by discriminate
               | rewrite lookup_assignIf_ne by discriminate
               | rewrite lookup_insert_ne by discriminate
               | rewrite lookup_assignOpt_eq
               | rewrite lookup_assignIf_eq
               | rewrite lookup_insert_eq
               | rewrite lookup_empty ];
             repeat match goal with |- context [if ?c then _ else _] => destruct c end;
             try reflexivity; destruct cursor; reflexivity |]).
    inversion Hin.
  - intros key Hsome. simpl.
    destruct (decide (key ∈ ["recipients"; "from"; "to"; "per_page"; "cursor"]))
      as [Hin|Hout]; [exact Hin|].
    exfalso. rewrite !not_elem_of_cons in Hout.
    repeat first
      [ rewrite lookup_assignOpt_ne in Hsome by (intros <-; tauto)
      | rewrite lookup_assignIf_ne in Hsome by (intros <-; tauto)
      | rewrite lookup_insert_ne in Hsome by (intros <-; tauto)
      | rewrite lookup_empty in Hsome ].
    destruct Hsome as [v Hv]. discriminate.
Qed.

Lemma emailFetchAll_asks (p : NodeParameters) (itemIndex : nat) (fuel : nat) :
  forall cursor entries st out st',
  match cursor with Some c => truthy c = true | None => True end ->
  emailFetchAll fuel (emailQueryBase p) itemIndex cursor entries st = Some (out, st') ->
  exists reqs,
    requests st' = (requests st ++ reqs)%list
    /\ Forall (fun options =>
         exists c, asksFor "/emails" (emailQueryFields p 100 c) options) reqs.
Proof.
  induction fuel as [|fuel IH]; intros cursor entries st out st' Hcur Hrun;
    [discriminate|].
  rewrite emailFetchAll_turn in Hrun by exact Hcur. cbv zeta in Hrun.
  assert (Hfirst : exists c, asksFor "/emails" (emailQueryFields p 100 c)
                               (emailPageRequest (emailQueryBase p) cursor)).
  { exists cursor. unfold asksFor. repeat split.
    exists (assignOpt cursor "cursor" (<["per_page" := JNum 100]> (emailQueryBase p))).
    split; [|apply emailQuery_reads].
    unfold emailPageRequest, requestOptions. simpl.
    destruct cursor; simpl; apply nonEmpty_insert. }
  destruct (httpRequestWithAuthentication _ _ _) as [response|message].
  - destruct (truthyOpt (nextCursor response)) eqn:Hmore.
    + apply IH in Hrun as (reqs & E & F).
      * exists (emailPageRequest (emailQueryBase p) cursor :: reqs).
        rewrite E. simpl. rewrite <- app_assoc. split; [reflexivity|].
        constructor; assumption.
      * destruct (nextCursor response); [exact Hmore | exact I].
    + inversion Hrun; subst. eexists. split; [reflexivity|]. repeat constructor.
      exact Hfirst.
  - inversion Hrun; subst. eexists. split; [reflexivity|]. repeat constructor.
    exact Hfirst.
Qed.

(** X19. Every request of the email listing is a GET /emails without body
    whose query holds the filters "recipients", "from" and "to" exactly when
    the inputs Recipients Filter, From Date and To Date are not empty,
    [per_page], the cursor when there is one, and nothing else.  A single
    page asks for [limit] entries from the starting cursor; an exhaustive
    fetch asks for 100 per page and sends the same filters with every
    page. *)
Theorem email_getAll_asks (fuel : nat) (p : NodeParameters) (itemIndex : nat)
    (st st' : State) (out : Outcome unit) :
  emailGetAll fuel p itemIndex st = Some (out, st') ->
  exists reqs,
    requests st' = (requests st ++ reqs)%list
    /\ if p_returnAll p
       then Forall (fun options =>
              exists c, asksFor "/emails" (emailQueryFields p 100 c) options) reqs
       else reqs = [requestOptions GET "/emails" ∅ (emailPageQuery p)]
            /\ Forall (asksFor "/emails"
                         (emailQueryFields p (p_limit p) (orUndefined (p_cursor p))))
                 reqs.
Proof.
  intros Hrun. unfold emailGetAll in Hrun. cbv zeta in Hrun.
  destruct (p_returnAll p); simpl in Hrun; unfold bind in Hrun.
  - destruct (emailFetchAll fuel (emailQueryBase p) itemIndex
                (orUndefined (p_cursor p)) [] st) as [[[entries|e] st1]|] eqn:Hloop;
      [| |discriminate];
      (apply emailFetchAll_asks in Hloop as (reqs & E & F);
       [|unfold orUndefined; destruct (truthyStr (p_cursor p)) eqn:Et;
         [exact Et | exact I]]);
      exists reqs; (split; [|exact F]).
    + destruct (p_simplify p); simpl in Hrun.
      * rewrite pushEntries_run in Hrun. inversion Hrun; subst. exact E.
      * inversion Hrun; subst. exact E.
    + inversion Hrun; subst. exact E.
  - exists [requestOptions GET "/emails" ∅ (emailPageQuery p)].
    rewrite lettrApiRequest_run in Hrun. cbv zeta in Hrun. split.
    + destruct (httpRequestWithAuthentication _ _ _) as [response|message].
      * destruct (p_simplify p); simpl in Hrun.
        -- rewrite pushEntries_run in Hrun. inversion Hrun; subst. reflexivity.
        -- inversion Hrun; subst. reflexivity.
      * inversion Hrun; subst. reflexivity.
    + split; [reflexivity|]. repeat constructor.
      assert (Hsingle : emailPageQuery p
                        = assignOpt (orUndefined (p_cursor p)) "cursor"
                            (<["per_page" := JNum (p_limit p)]> (emailQueryBase p))).
      { unfold emailPageQuery, orUndefined, assignIf.
        destruct (truthyStr (p_cursor p)); reflexivity. }
      exists (emailPageQuery p). split.
      * simpl. rewrite Hsingle. destruct (orUndefined (p_cursor p)); simpl;
          apply nonEmpty_insert.
      * rewrite Hsingle. apply emailQuery_reads.
Qed.

Lemma templateQuery_reads (p : NodeParameters) (perPage page : Z) :
  let q := <["page" := JNum page]>
             (<["per_page" := JNum perPage]> (templateQueryBase p)) in
  (forall key value, (key, value) ∈ templateQueryFields p perPage page -> q !! key = value)
  /\ (forall key, is_Some (q !! key) ->
        key ∈ (fst <$> templateQueryFields p perPage page)).
Proof.
  cbv zeta. unfold templateQueryBase, templateQueryFields. cbv zeta. split.
  - intros key value Hin.
    repeat (apply elem_of_cons in Hin as [Hin|Hin];
            [injection Hin as -> ->;
             repeat first
               [ rewrite lookup_assignIf_ne by discriminate
               | rewrite lookup_insert_ne by discriminate
               | rewrite lookup_assignIf_eq
               | rewrite lookup_insert_eq
               | rewrite lookup_empty ];
             repeat match goal with |- context [if ?c then _ else _] => destruct c end;
             reflexivity |]).
    inversion Hin.
  - intros key Hsome. simpl.
    destruct (decide (key ∈ ["project_id"; "per_page"; "page"])) as [Hin|Hout];
      [exact Hin|].
    exfalso. rewrite !not_elem_of_cons in Hout.
    repeat first
      [ rewrite lookup_assignIf_ne in Hsome by (intros <-; tauto)
      | rewrite lookup_insert_ne in Hsome by (intros <-; tauto)
      | rewrite lookup_empty in Hsome ].
    destruct Hsome as [v Hv]. discriminate.
Qed.

Lemma templatePageRequest_asks (p : NodeParameters) (perPage page : Z) :
  asksFor "/templates" (templateQueryFields p perPage page)
    (requestOptions GET "/templates" ∅
       (<["page" := JNum page]> (<["per_page" := JNum perPage]> (templateQueryBase p)))).
Proof.
  unfold asksFor. repeat split. eexists. split; [|apply templateQuery_reads].
  simpl. apply nonEmpty_insert.
Qed.

Lemma templateFetchAll_asks (p : NodeParameters) (itemIndex : nat) (fuel : nat) :
  forall page entries st out st',
  templateFetchAll fuel (templateQueryBase p) itemIndex page entries st = Some (out, st') ->
  exists reqs,
    requests st' = (requests st ++ reqs)%list
    /\ Forall (fun options =>
         exists n, asksFor "/templates" (templateQueryFields p 100 n) options) reqs.
Proof.
  induction fuel as [|fuel IH]; intros page entries st out st' Hrun; [discriminate|].
  rewrite templateFetchAll_turn in Hrun. cbv zeta in Hrun.
  assert (Hfirst : exists n, asksFor "/templates" (templateQueryFields p 100 n)
                               (templatePageRequest (templateQueryBase p) page))
    by (exists page; apply templatePageRequest_asks).
  destruct (httpRequestWithAuthentication _ _ _) as [response|message].
  - destruct (if hasMoreAfter page response then _ else _) as [c|].
    + apply IH in Hrun as (reqs & E & F).
      exists (templatePageRequest (templateQueryBase p) page :: reqs).
      rewrite E. simpl. rewrite <- app_assoc. split; [reflexivity|].
      constructor; assumption.
    + inversion Hrun; subst. eexists. split; [reflexivity|]. repeat constructor.
      exact Hfirst.
  - inversion Hrun; subst. eexists. split; [reflexivity|]. repeat constructor.
    exact Hfirst.
Qed.

(** X20. Every request of the template listing is a GET /templates without
    body whose query holds [project_id] exactly when the Project ID input is
    positive, [per_page] and [page], and nothing else.  A single page asks
    for the page given (as it is) and [limit] entries; an exhaustive fetch
    asks for 100 per page and sends the same project filter with every
    page. *)
Theorem template_getAll_asks (fuel : nat) (p : NodeParameters) (itemIndex : nat)
    (st st' : State) (out : Outcome unit) :
  templateGetAll fuel p itemIndex st = Some (out, st') ->
  exists reqs,
    requests st' = (requests st ++ reqs)%list
    /\ if p_returnAll p
       then Forall (fun options =>
              exists n, asksFor "/templates" (templateQueryFields p 100 n) options) reqs
       else reqs = [requestOptions GET "/templates" ∅ (templatePageQuery p)]
            /\ Forall (asksFor "/templates"
                         (templateQueryFields p (p_limit p) (p_templatePage p))) reqs.
Proof.
  intros Hrun. unfold templateGetAll in Hrun. cbv zeta in Hrun.
  destruct (p_returnAll p); simpl in Hrun; unfold bind in Hrun.
  - destruct (templateFetchAll fuel (templateQueryBase p) itemIndex
                (Z.max 1 (p_templatePage p)) [] st) as [[[entries|e] st1]|] eqn:Hloop;
      [| |discriminate];
      apply templateFetchAll_asks in Hloop as (reqs & E & F);
      exists reqs; (split; [|exact F]).
    + destruct (p_simplify p); simpl in Hrun.
      * rewrite pushEntries_run in Hrun. inversion Hrun; subst. exact E.
      * inversion Hrun; subst. exact E.
    + inversion Hrun; subst. exact E.
  - exists [requestOptions GET "/templates" ∅ (templatePageQuery p)].
    rewrite lettrApiRequest_run in Hrun. cbv zeta in Hrun. split.
    + destruct (httpRequestWithAuthentication _ _ _) as [response|message].
      * destruct (p_simplify p); simpl in Hrun.
        -- rewrite pushEntries_run in Hrun. inversion Hrun; subst. reflexivity.
        -- inversion Hrun; subst. reflexivity.
      * inversion Hrun; subst. reflexivity.
    + split; [reflexivity|]. repeat constructor. apply templatePageRequest_asks.
Qed.

End Further.

(** * The further statements at concrete inputs *)

Lemma splitRecipientList_joinWith_witness :
  splitRecipientList (joinWith ";"%char ["a@x.com"; "b c@x.com"; "d@x.com"])
  = ["a@x.com"; "b c@x.com"; "d@x.com"].
Proof.
  apply (splitRecipientList_joinWith ";"%char ["a@x.com"; "b c@x.com"; "d@x.com"]).
  - reflexivity.
  - repeat constructor.
Defined.

Lemma unsupported_item_is_skipped_witness :
  @executeItem toyRuntime (downHost false) 0 strayParams 0 initialState
  = Some (Done tt, initialState).
Proof.
  apply (unsupported_item_is_skipped (runtime := toyRuntime) (host := downHost false)).
  reflexivity.
Defined.

Lemma item_errors_carry_index_witness :
  errorItemIndex (NodeApiError "Service Unavailable" 5) = 5%nat.
Proof.
  apply (item_errors_carry_index (runtime := toyRuntime) (host := breakingCursorHost false)
           3 (listParams "email" true 50 true) 5 initialState
           {| requests := [ emailPageRequest ∅ None;
                            emailPageRequest ∅ (Some (JStr "c1"));
                            emailPageRequest ∅ (Some (JStr "c2")) ];
              returnData := [] |}).
  reflexivity.
Defined.

Lemma item_output_paired_witness :
  exists new,
    entryRecords [entryOf 1; entryOf 2] 3 = ([] ++ new)%list
    /\ Forall (fun r => pairedItem r = 3%nat) new.
Proof.
  apply (item_output_paired (runtime := toyRuntime) (host := listingHost "domains") 0
           (listParams "domain" false 2 true) 3 initialState
           {| requests := [requestOptions GET "/domains" ∅ ∅];
              returnData := entryRecords [entryOf 1; entryOf 2] 3 |} (Done tt)).
  reflexivity.
Defined.

Lemma execute_output_follows_items_witness :
  let output :=
    [ {| ned_json := JObj {[ "error" := JStr "Service Unavailable" ]}; pairedItem := 1 |};
      {| ned_json := JObj {[ "error" := JStr "Service Unavailable" ]}; pairedItem := 2 |} ] in
  @execute toyRuntime (downHost true) 0
    [strayParams; listParams "domain" true 50 true; getParams "r1"]
  = Some (Done [output],
          {| requests := [ requestOptions GET "/domains" ∅ ∅;
                           requestOptions GET "/emails/r1" ∅ ∅ ];
             returnData := output |})
  /\ Forall (fun r => (pairedItem r < 3)%nat) output
  /\ StronglySorted le (pairedItems output).
Proof.
  intros output. split; [reflexivity|].
  apply (execute_output_follows_items (runtime := toyRuntime) (host := downHost true) 0
           [strayParams; listParams "domain" true 50 true; getParams "r1"]
           [output]
           {| requests := [ requestOptions GET "/domains" ∅ ∅;
                            requestOptions GET "/emails/r1" ∅ ∅ ];
              returnData := output |}).
  reflexivity.
Defined.

Lemma item_issues_at_most_one_request_witness :
  exists out st' reqs,
    @executeItem toyRuntime acceptingHost 0
      (sendParams "a@x.com" "b@x.com" "Hi" "<p>Hi</p>" someFields) 0 initialState
    = Some (out, st')
    /\ requests st' = ([] ++ reqs)%list /\ (length reqs <= 1)%nat.
Proof.
  apply (item_issues_at_most_one_request (runtime := toyRuntime) (host := acceptingHost)).
  reflexivity.
Defined.

Lemma batch_request_budget_witness :
  exists out st',
    @executeItems toyRuntime (downHost true) 0
      [strayParams; listParams "domain" true 50 true; getParams "r1"] 0 initialState
    = Some (out, st')
    /\ (0 <= length (requests st') <= 0 + 3)%nat.
Proof.
  apply (batch_request_budget (runtime := toyRuntime) (host := downHost true) 0
           [strayParams; listParams "domain" true 50 true; getParams "r1"]).
  repeat constructor.
Defined.

Lemma email_getAll_breaks_witness :
  @emailGetAll (breakingCursorHost false) 3 (listParams "email" true 50 true) 0
    initialState
  = Some (Throw (NodeApiError "Service Unavailable" 0),
          {| requests := [ emailPageRequest ∅ None;
                           emailPageRequest ∅ (Some (JStr "c1"));
                           emailPageRequest ∅ (Some (JStr "c2")) ];
             returnData := [] |}).
Proof.
  apply (email_getAll_breaks (host := breakingCursorHost false) 3
           (listParams "email" true 50 true) 0
           [(cursorPage1, "c1"); (cursorPage2, "c2")] "Service Unavailable"
           initialState).
  - reflexivity.
  - repeat constructor; discriminate.
  - simpl. repeat split.
  - simpl. lia.
Defined.

Lemma template_getAll_breaks_witness :
  @templateGetAll toyRuntime breakingPageHost 3 (listParams "template" true 50 true) 0
    initialState
  = Some (Throw (NodeApiError "Service Unavailable" 0),
          {| requests := [ templatePageRequest ∅ 1; templatePageRequest ∅ 2;
                           templatePageRequest ∅ 3 ];
             returnData := [] |}).
Proof.
  apply (template_getAll_breaks (runtime := toyRuntime) (host := breakingPageHost) 3
           (listParams "template" true 50 true) 0
           [(templatePage 1, (1, 3)%Z); (templatePage 2, (2, 3)%Z)]
           "Service Unavailable" initialState).
  - reflexivity.
  - repeat constructor.
  - simpl. repeat split.
  - simpl. lia.
Defined.

Lemma email_fetchAll_unbounded_witness :
  @emailGetAll endlessCursorHost 1000 (listParams "email" true 50 true) 0 initialState
  = None.
Proof.
  apply (email_fetchAll_unbounded (host := endlessCursorHost)).
  - intros history options. eexists. split; reflexivity.
  - reflexivity.
Defined.

Lemma template_fetchAll_unbounded_witness :
  @templateGetAll toyRuntime endlessPageHost 1000 (listParams "template" true 50 true) 0
    initialState
  = None.
Proof.
  apply (template_fetchAll_unbounded (runtime := toyRuntime) (host := endlessPageHost)).
  - intros history options. exists (envelope "templates" [entryOf 1] (Some (pagesOf 1 2))).
    exists 1%Z, 2%Z. split; [reflexivity|]. split; [split; reflexivity | lia].
  - reflexivity.
Defined.

Lemma template_fetchAll_stops_on_NaN_witness :
  @templateFetchAll toyRuntime oddPageHost 5 ∅ 0 1 [] initialState
  = Some (Done [entryOf 1],
          {| requests := [templatePageRequest ∅ 1]; returnData := [] |}).
Proof.
  apply (template_fetchAll_stops_on_NaN (runtime := toyRuntime) (host := oddPageHost)
           4 ∅ 0 1 [] initialState oddPage).
  - reflexivity.
  - left. reflexivity.
Defined.

Lemma template_getAll_exhaustive_output_witness :
  @templateGetAll toyRuntime pageHost 3 (listParams "template" true 50 false) 0
    initialState
  = Some (Done tt,
          {| requests := [ templatePageRequest ∅ 1; templatePageRequest ∅ 2;
                           templatePageRequest ∅ 3 ];
             returnData :=
               [ {| ned_json :=
                      JObj {[ "data" :=
                                JObj {[ "templates" :=
                                          JArr [entryOf 1; entryOf 2; entryOf 3] ]} ]};
                    pairedItem := 0 |} ] |}).
Proof.
  apply (template_getAll_exhaustive_output (runtime := toyRuntime) (host := pageHost) 3
           (listParams "template" true 50 false) 0
           [entryOf 1; entryOf 2; entryOf 3] initialState
           {| requests := [ templatePageRequest ∅ 1; templatePageRequest ∅ 2;
                            templatePageRequest ∅ 3 ];
              returnData := [] |}); reflexivity.
Defined.

Lemma raw_response_is_passed_on_witness :
  @executeItem toyRuntime cursorHost 0 (listParams "email" false 2 false) 4 initialState
  = Some (Done tt,
          {| requests := [requestOptions GET "/emails" ∅ {[ "per_page" := JNum 2 ]}];
             returnData := [ {| ned_json := JObj cursorPage1; pairedItem := 4 |} ] |})
  /\ @executeItem toyRuntime acceptingHost 0 (getParams "r1") 4 initialState
     = Some (Done tt,
             {| requests := [requestOptions GET "/emails/r1" ∅ ∅];
                returnData := [ {| ned_json := JObj {[ "request_id" := JStr "r1" ]};
                                   pairedItem := 4 |} ] |}).
Proof.
  split.
  - apply (raw_response_is_passed_on (runtime := toyRuntime) (host := cursorHost) 0
             (listParams "email" false 2 false) 4 initialState cursorPage1).
    + right. repeat split. left. reflexivity.
    + reflexivity.
  - apply (raw_response_is_passed_on (runtime := toyRuntime) (host := acceptingHost) 0
             (getParams "r1") 4 initialState {[ "request_id" := JStr "r1" ]}).
    + left. split; reflexivity.
    + reflexivity.
Defined.

Lemma plain_getAll_keeps_the_rest_witness :
  exists (response output data' : IDataObject),
    httpRequestWithAuthentication (IExecuteFunctions := listingHost "webhooks")
      [] "lettrApi" (requestOptions GET "/webhooks" ∅ ∅) = HttpOk response
    /\ [ {| ned_json :=
              JObj {[ "data" := JObj {[ "webhooks" := JArr [entryOf 1; entryOf 2] ]} ]};
            pairedItem := 0 |} ]
       = ([] ++ [ {| ned_json := JObj output; pairedItem := 0 |} ])%list
    /\ output !! "data" = Some (JObj data')
    /\ (forall key, key <> "data" -> output !! key = response !! key)
    /\ getResponseList output "webhooks"
       = slice0 (getResponseList response "webhooks") 2
    /\ (forall key data, key <> "webhooks" ->
          response !! "data" = Some (JObj data) -> data' !! key = data !! key).
Proof.
  apply (plain_getAll_keeps_the_rest (host := listingHost "webhooks")
           "/webhooks" "webhooks" (listParams "webhook" false 2 false) 0 initialState
           {| requests := [requestOptions GET "/webhooks" ∅ ∅];
              returnData :=
                [ {| ned_json :=
                       JObj {[ "data" :=
                                 JObj {[ "webhooks" := JArr [entryOf 1; entryOf 2] ]} ]};
                     pairedItem := 0 |} ] |}); reflexivity.
Defined.

Lemma email_getAll_asks_witness :
  exists reqs,
    [requestOptions GET "/emails" ∅ (emailPageQuery (filteredParams false))]
    = ([] ++ reqs)%list
    /\ reqs = [requestOptions GET "/emails" ∅ (emailPageQuery (filteredParams false))]
    /\ Forall (asksFor "/emails"
                 [ ("recipients", Some (JStr "b@x.com"));
                   ("from", Some (JStr "2024-01-01"));
                   ("to", None);
                   ("per_page", Some (JNum 10));
                   ("cursor", None) ]) reqs.
Proof.
  apply (email_getAll_asks (host := downHost false) 0 (filteredParams false) 0
           initialState
           {| requests :=
                [requestOptions GET "/emails" ∅ (emailPageQuery (filteredParams false))];
              returnData := [] |}
           (Throw (NodeApiError "Service Unavailable" 0))).
  reflexivity.
Defined.

Lemma template_getAll_asks_witness :
  exists reqs,
    [requestOptions GET "/templates" ∅ (templatePageQuery (projectParams false))]
    = ([] ++ reqs)%list
    /\ reqs = [requestOptions GET "/templates" ∅ (templatePageQuery (projectParams false))]
    /\ Forall (asksFor "/templates"
                 [ ("project_id", Some (JNum 7));
                   ("per_page", Some (JNum 10));
                   ("page", Some (JNum 2)) ]) reqs.
Proof.
  apply (template_getAll_asks (runtime := toyRuntime) (host := downHost false) 0
           (projectParams false) 0 initialState
           {| requests :=
                [requestOptions GET "/templates" ∅ (templatePageQuery (projectParams false))];
              returnData := [] |}
           (Throw (NodeApiError "Service Unavailable" 0))).
  reflexivity.
Defined.
